(** * homework_bot: the polling loop of [homework.py]

    A shallow embedding of [homework.py]: the values the Practicum API
    answers with, the exceptions the bot raises, the functions
    [send_message], [get_api_answer], [check_response], [parse_status],
    [check_tokens], the body of [main] and the console thread [repl],
    followed by the properties of the polling loop. *)

From Stdlib Require Import Ascii.
From stdpp Require Import base numbers strings pretty list gmap.

Local Open Scope Z_scope.

(** ** Python values *)

(** What [response.json()] can hand to the bot: the decoded JSON values
    ([float] is left out), a [dict] being the list of its items in
    insertion order. *)
#[warnings="-register-all"]
Inductive pyval : Type :=
| VNone
| VBool (b : bool)
| VInt (n : Z)
| VStr (s : string)
| VList (items : list pyval)
| VDict (items : list (string * pyval)).

(** The double quote, which a string literal cannot hold. *)
Definition dq : string := String "034"%char EmptyString.

(** [bool(v)]: what [not v], [v or w] and [all] look at. *)
Definition py_truthy (v : pyval) : bool :=
  match v with
  | VNone => false
  | VBool b => b
  | VInt n => negb (n =? 0)
  | VStr s => negb (bool_decide (s = EmptyString))
  | VList l => match l with [] => false | _ => true end
  | VDict d => match d with [] => false | _ => true end
  end.

(** [v or w]. *)
Definition py_or (v w : pyval) : pyval := if py_truthy v then v else w.

(** [d.get(k)] on the items of a [dict]: [None] when the key is missing. *)
Fixpoint dict_get (d : list (string * pyval)) (k : string) : pyval :=
  match d with
  | [] => VNone
  | (k', v) :: d' => if bool_decide (k' = k) then v else dict_get d' k
  end.

Definition is_None (v : pyval) : bool :=
  match v with VNone => true | _ => false end.

(** [type(v).__name__]. *)
Definition type_name (v : pyval) : string :=
  match v with
  | VNone => "NoneType"
  | VBool _ => "bool"
  | VInt _ => "int"
  | VStr _ => "str"
  | VList _ => "list"
  | VDict _ => "dict"
  end.

(** *** [str] and [repr], as f-strings use them *)

Definition hex_digit (n : N) : ascii :=
  match String.get (N.to_nat n) "0123456789abcdef" with
  | Some c => c
  | None => "0"%char
  end.

Fixpoint string_mem (c : ascii) (s : string) : bool :=
  match s with
  | EmptyString => false
  | String c' s' => if bool_decide (c' = c) then true else string_mem c s'
  end.

(** The code points from 128 on that [str.isprintable] refuses, as
    closed ranges: the categories Cc, Cf, Cs, Co, Cn, Zl, Zp and Zs of
    the Unicode database of CPython 3.11 (Unicode 14.0). *)
Definition not_printable : list (N * N) :=
  [
   (128, 160); (173, 173); (888, 889); (896, 899); (907, 907); (909, 909);
   (930, 930); (1328, 1328); (1367, 1368); (1419, 1420); (1424, 1424);
   (1480, 1487); (1515, 1518); (1525, 1541); (1564, 1564); (1757, 1757);
   (1806, 1807); (1867, 1868); (1970, 1983); (2043, 2044); (2094, 2095);
   (2111, 2111); (2140, 2141); (2143, 2143); (2155, 2159); (2191, 2199);
   (2274, 2274); (2436, 2436); (2445, 2446); (2449, 2450); (2473, 2473);
   (2481, 2481); (2483, 2485); (2490, 2491); (2501, 2502); (2505, 2506);
   (2511, 2518); (2520, 2523); (2526, 2526); (2532, 2533); (2559, 2560);
   (2564, 2564); (2571, 2574); (2577, 2578); (2601, 2601); (2609, 2609);
   (2612, 2612); (2615, 2615); (2618, 2619); (2621, 2621); (2627, 2630);
   (2633, 2634); (2638, 2640); (2642, 2648); (2653, 2653); (2655, 2661);
   (2679, 2688); (2692, 2692); (2702, 2702); (2706, 2706); (2729, 2729);
   (2737, 2737); (2740, 2740); (2746, 2747); (2758, 2758); (2762, 2762);
   (2766, 2767); (2769, 2783); (2788, 2789); (2802, 2808); (2816, 2816);
   (2820, 2820); (2829, 2830); (2833, 2834); (2857, 2857); (2865, 2865);
   (2868, 2868); (2874, 2875); (2885, 2886); (2889, 2890); (2894, 2900);
   (2904, 2907); (2910, 2910); (2916, 2917); (2936, 2945); (2948, 2948);
   (2955, 2957); (2961, 2961); (2966, 2968); (2971, 2971); (2973, 2973);
   (2976, 2978); (2981, 2983); (2987, 2989); (3002, 3005); (3011, 3013);
   (3017, 3017); (3022, 3023); (3025, 3030); (3032, 3045); (3067, 3071);
   (3085, 3085); (3089, 3089); (3113, 3113); (3130, 3131); (3141, 3141);
   (3145, 3145); (3150, 3156); (3159, 3159); (3163, 3164); (3166, 3167);
   (3172, 3173); (3184, 3190); (3213, 3213); (3217, 3217); (3241, 3241);
   (3252, 3252); (3258, 3259); (3269, 3269); (3273, 3273); (3278, 3284);
   (3287, 3292); (3295, 3295); (3300, 3301); (3312, 3312); (3315, 3327);
   (3341, 3341); (3345, 3345); (3397, 3397); (3401, 3401); (3408, 3411);
   (3428, 3429); (3456, 3456); (3460, 3460); (3479, 3481); (3506, 3506);
   (3516, 3516); (3518, 3519); (3527, 3529); (3531, 3534); (3541, 3541);
   (3543, 3543); (3552, 3557); (3568, 3569); (3573, 3584); (3643, 3646);
   (3676, 3712); (3715, 3715); (3717, 3717); (3723, 3723); (3748, 3748);
   (3750, 3750); (3774, 3775); (3781, 3781); (3783, 3783); (3790, 3791);
   (3802, 3803); (3808, 3839); (3912, 3912); (3949, 3952); (3992, 3992);
   (4029, 4029); (4045, 4045); (4059, 4095); (4294, 4294); (4296, 4300);
   (4302, 4303); (4681, 4681); (4686, 4687); (4695, 4695); (4697, 4697);
   (4702, 4703); (4745, 4745); (4750, 4751); (4785, 4785); (4790, 4791);
   (4799, 4799); (4801, 4801); (4806, 4807); (4823, 4823); (4881, 4881);
   (4886, 4887); (4955, 4956); (4989, 4991); (5018, 5023); (5110, 5111);
   (5118, 5119); (5760, 5760); (5789, 5791); (5881, 5887); (5910, 5918);
   (5943, 5951); (5972, 5983); (5997, 5997); (6001, 6001); (6004, 6015);
   (6110, 6111); (6122, 6127); (6138, 6143); (6158, 6158); (6170, 6175);
   (6265, 6271); (6315, 6319); (6390, 6399); (6431, 6431); (6444, 6447);
   (6460, 6463); (6465, 6467); (6510, 6511); (6517, 6527); (6572, 6575);
   (6602, 6607); (6619, 6621); (6684, 6685); (6751, 6751); (6781, 6782);
   (6794, 6799); (6810, 6815); (6830, 6831); (6863, 6911); (6989, 6991);
   (7039, 7039); (7156, 7163); (7224, 7226); (7242, 7244); (7305, 7311);
   (7355, 7356); (7368, 7375); (7419, 7423); (7958, 7959); (7966, 7967);
   (8006, 8007); (8014, 8015); (8024, 8024); (8026, 8026); (8028, 8028);
   (8030, 8030); (8062, 8063); (8117, 8117); (8133, 8133); (8148, 8149);
   (8156, 8156); (8176, 8177); (8181, 8181); (8191, 8207); (8232, 8239);
   (8287, 8303); (8306, 8307); (8335, 8335); (8349, 8351); (8385, 8399);
   (8433, 8447); (8588, 8591); (9255, 9279); (9291, 9311); (11124, 11125);
   (11158, 11158); (11508, 11512); (11558, 11558); (11560, 11564);
   (11566, 11567); (11624, 11630); (11633, 11646); (11671, 11679);
   (11687, 11687); (11695, 11695); (11703, 11703); (11711, 11711);
   (11719, 11719); (11727, 11727); (11735, 11735); (11743, 11743);
   (11870, 11903); (11930, 11930); (12020, 12031); (12246, 12271);
   (12284, 12288); (12352, 12352); (12439, 12440); (12544, 12548);
   (12592, 12592); (12687, 12687); (12772, 12783); (12831, 12831);
   (42125, 42127); (42183, 42191); (42540, 42559); (42744, 42751);
   (42955, 42959); (42962, 42962); (42964, 42964); (42970, 42993);
   (43053, 43055); (43066, 43071); (43128, 43135); (43206, 43213);
   (43226, 43231); (43348, 43358); (43389, 43391); (43470, 43470);
   (43482, 43485); (43519, 43519); (43575, 43583); (43598, 43599);
   (43610, 43611); (43715, 43738); (43767, 43776); (43783, 43784);
   (43791, 43792); (43799, 43807); (43815, 43815); (43823, 43823);
   (43884, 43887); (44014, 44015); (44026, 44031); (55204, 55215);
   (55239, 55242); (55292, 63743); (64110, 64111); (64218, 64255);
   (64263, 64274); (64280, 64284); (64311, 64311); (64317, 64317);
   (64319, 64319); (64322, 64322); (64325, 64325); (64451, 64466);
   (64912, 64913); (64968, 64974); (64976, 65007); (65050, 65055);
   (65107, 65107); (65127, 65127); (65132, 65135); (65141, 65141);
   (65277, 65280); (65471, 65473); (65480, 65481); (65488, 65489);
   (65496, 65497); (65501, 65503); (65511, 65511); (65519, 65531);
   (65534, 65535); (65548, 65548); (65575, 65575); (65595, 65595);
   (65598, 65598); (65614, 65615); (65630, 65663); (65787, 65791);
   (65795, 65798); (65844, 65846); (65935, 65935); (65949, 65951);
   (65953, 65999); (66046, 66175); (66205, 66207); (66257, 66271);
   (66300, 66303); (66340, 66348); (66379, 66383); (66427, 66431);
   (66462, 66462); (66500, 66503); (66518, 66559); (66718, 66719);
   (66730, 66735); (66772, 66775); (66812, 66815); (66856, 66863);
   (66916, 66926); (66939, 66939); (66955, 66955); (66963, 66963);
   (66966, 66966); (66978, 66978); (66994, 66994); (67002, 67002);
   (67005, 67071); (67383, 67391); (67414, 67423); (67432, 67455);
   (67462, 67462); (67505, 67505); (67515, 67583); (67590, 67591);
   (67593, 67593); (67638, 67638); (67641, 67643); (67645, 67646);
   (67670, 67670); (67743, 67750); (67760, 67807); (67827, 67827);
   (67830, 67834); (67868, 67870); (67898, 67902); (67904, 67967);
   (68024, 68027); (68048, 68049); (68100, 68100); (68103, 68107);
   (68116, 68116); (68120, 68120); (68150, 68151); (68155, 68158);
   (68169, 68175); (68185, 68191); (68256, 68287); (68327, 68330);
   (68343, 68351); (68406, 68408); (68438, 68439); (68467, 68471);
   (68498, 68504); (68509, 68520); (68528, 68607); (68681, 68735);
   (68787, 68799); (68851, 68857); (68904, 68911); (68922, 69215);
   (69247, 69247); (69290, 69290); (69294, 69295); (69298, 69375);
   (69416, 69423); (69466, 69487); (69514, 69551); (69580, 69599);
   (69623, 69631); (69710, 69713); (69750, 69758); (69821, 69821);
   (69827, 69839); (69865, 69871); (69882, 69887); (69941, 69941);
   (69960, 69967); (70007, 70015); (70112, 70112); (70133, 70143);
   (70162, 70162); (70207, 70271); (70279, 70279); (70281, 70281);
   (70286, 70286); (70302, 70302); (70314, 70319); (70379, 70383);
   (70394, 70399); (70404, 70404); (70413, 70414); (70417, 70418);
   (70441, 70441); (70449, 70449); (70452, 70452); (70458, 70458);
   (70469, 70470); (70473, 70474); (70478, 70479); (70481, 70486);
   (70488, 70492); (70500, 70501); (70509, 70511); (70517, 70655);
   (70748, 70748); (70754, 70783); (70856, 70863); (70874, 71039);
   (71094, 71095); (71134, 71167); (71237, 71247); (71258, 71263);
   (71277, 71295); (71354, 71359); (71370, 71423); (71451, 71452);
   (71468, 71471); (71495, 71679); (71740, 71839); (71923, 71934);
   (71943, 71944); (71946, 71947); (71956, 71956); (71959, 71959);
   (71990, 71990); (71993, 71994); (72007, 72015); (72026, 72095);
   (72104, 72105); (72152, 72153); (72165, 72191); (72264, 72271);
   (72355, 72367); (72441, 72703); (72713, 72713); (72759, 72759);
   (72774, 72783); (72813, 72815); (72848, 72849); (72872, 72872);
   (72887, 72959); (72967, 72967); (72970, 72970); (73015, 73017);
   (73019, 73019); (73022, 73022); (73032, 73039); (73050, 73055);
   (73062, 73062); (73065, 73065); (73103, 73103); (73106, 73106);
   (73113, 73119); (73130, 73439); (73465, 73647); (73649, 73663);
   (73714, 73726); (74650, 74751); (74863, 74863); (74869, 74879);
   (75076, 77711); (77811, 77823); (78895, 82943); (83527, 92159);
   (92729, 92735); (92767, 92767); (92778, 92781); (92863, 92863);
   (92874, 92879); (92910, 92911); (92918, 92927); (92998, 93007);
   (93018, 93018); (93026, 93026); (93048, 93052); (93072, 93759);
   (93851, 93951); (94027, 94030); (94088, 94094); (94112, 94175);
   (94181, 94191); (94194, 94207); (100344, 100351); (101590, 101631);
   (101641, 110575); (110580, 110580); (110588, 110588); (110591, 110591);
   (110883, 110927); (110931, 110947); (110952, 110959); (111356, 113663);
   (113771, 113775); (113789, 113791); (113801, 113807); (113818, 113819);
   (113824, 118527); (118574, 118575); (118599, 118607); (118724, 118783);
   (119030, 119039); (119079, 119080); (119155, 119162); (119275, 119295);
   (119366, 119519); (119540, 119551); (119639, 119647); (119673, 119807);
   (119893, 119893); (119965, 119965); (119968, 119969); (119971, 119972);
   (119975, 119976); (119981, 119981); (119994, 119994); (119996, 119996);
   (120004, 120004); (120070, 120070); (120075, 120076); (120085, 120085);
   (120093, 120093); (120122, 120122); (120127, 120127); (120133, 120133);
   (120135, 120137); (120145, 120145); (120486, 120487); (120780, 120781);
   (121484, 121498); (121504, 121504); (121520, 122623); (122655, 122879);
   (122887, 122887); (122905, 122906); (122914, 122914); (122917, 122917);
   (122923, 123135); (123181, 123183); (123198, 123199); (123210, 123213);
   (123216, 123535); (123567, 123583); (123642, 123646); (123648, 124895);
   (124903, 124903); (124908, 124908); (124911, 124911); (124927, 124927);
   (125125, 125126); (125143, 125183); (125260, 125263); (125274, 125277);
   (125280, 126064); (126133, 126208); (126270, 126463); (126468, 126468);
   (126496, 126496); (126499, 126499); (126501, 126502); (126504, 126504);
   (126515, 126515); (126520, 126520); (126522, 126522); (126524, 126529);
   (126531, 126534); (126536, 126536); (126538, 126538); (126540, 126540);
   (126544, 126544); (126547, 126547); (126549, 126550); (126552, 126552);
   (126554, 126554); (126556, 126556); (126558, 126558); (126560, 126560);
   (126563, 126563); (126565, 126566); (126571, 126571); (126579, 126579);
   (126584, 126584); (126589, 126589); (126591, 126591); (126602, 126602);
   (126620, 126624); (126628, 126628); (126634, 126634); (126652, 126703);
   (126706, 126975); (127020, 127023); (127124, 127135); (127151, 127152);
   (127168, 127168); (127184, 127184); (127222, 127231); (127406, 127461);
   (127491, 127503); (127548, 127551); (127561, 127567); (127570, 127583);
   (127590, 127743); (128728, 128732); (128749, 128751); (128765, 128767);
   (128884, 128895); (128985, 128991); (129004, 129007); (129009, 129023);
   (129036, 129039); (129096, 129103); (129114, 129119); (129160, 129167);
   (129198, 129199); (129202, 129279); (129620, 129631); (129646, 129647);
   (129653, 129655); (129661, 129663); (129671, 129679); (129709, 129711);
   (129723, 129727); (129734, 129743); (129754, 129759); (129768, 129775);
   (129783, 129791); (129939, 129939); (129995, 130031); (130042, 131071);
   (173792, 173823); (177977, 177983); (178206, 178207); (183970, 183983);
   (191457, 194559); (195102, 196607); (201547, 917759); (918000, 1114111)
  ]%N.

Definition is_printable (cp : N) : bool :=
  negb (existsb (λ range, (fst range <=? cp)%N && (cp <=? snd range)%N) not_printable).

(** [n] in lower-case hexadecimal, on [width] digits. *)
Fixpoint hex_digits (width : nat) (n : N) : string :=
  match width with
  | O => EmptyString
  | S width' => hex_digits width' (n / 16) +:+ String (hex_digit (n mod 16)) EmptyString
  end.

(** The escape of a code point that [repr] does not print. *)
Definition escape_code_point (cp : N) : string :=
  if (cp <? 256)%N then String "\"%char (String "x"%char (hex_digits 2 cp))
  else if (cp <? 65536)%N then String "\"%char (String "u"%char (hex_digits 4 cp))
  else String "\"%char (String "U"%char (hex_digits 8 cp)).

(** One character below 128 of [repr] of a [str] quoted with [q]. *)
Definition repr_char (q c : ascii) : string :=
  let n := N_of_ascii c in
  if bool_decide (c = q) || bool_decide (c = "\"%char)
  then String "\"%char (String c EmptyString)
  else if (n =? 9)%N then "\t"
  else if (n =? 10)%N then "\n"
  else if (n =? 13)%N then "\r"
  else if (n <? 32)%N || (n =? 127)%N
  then String "\"%char (String "x"%char
         (String (hex_digit (n / 16)) (String (hex_digit (n mod 16)) EmptyString)))
  else String c EmptyString.

(** A code point from 128 on, given with its bytes: printed as it is or
    escaped. *)
Definition repr_code_point (cp : N) (bytes : string) : string :=
  if is_printable cp then bytes else escape_code_point cp.

(** The characters of [repr] of a [str] quoted with [q].  A [str] is
    held as its UTF-8 bytes, a lone surrogate being encoded like any
    other code point, and is read one byte at a time: [pending] is the
    sequence under way, as the number of bytes still to come, the bits
    read so far and the bytes read so far.  Bytes that do not form a
    sequence, which no [str] gives, are kept as they are. *)
Fixpoint repr_chars_from (q : ascii) (pending : option (nat * N * string))
    (s : string) : string :=
  match s with
  | EmptyString =>
      match pending with
      | Some (_, _, bytes) => bytes
      | None => EmptyString
      end
  | String c s' =>
      let n := N_of_ascii c in
      let start :=
        if (n <? 128)%N then repr_char q c +:+ repr_chars_from q None s'
        else if (192 <=? n)%N && (n <? 224)%N
        then repr_chars_from q (Some (1%nat, n - 192, String c EmptyString)%N) s'
        else if (224 <=? n)%N && (n <? 240)%N
        then repr_chars_from q (Some (2%nat, n - 224, String c EmptyString)%N) s'
        else if (240 <=? n)%N && (n <? 248)%N
        then repr_chars_from q (Some (3%nat, n - 240, String c EmptyString)%N) s'
        else String c (repr_chars_from q None s') in
      match pending with
      | Some (S more, bits, bytes) =>
          if (128 <=? n)%N && (n <? 192)%N
          then
            let bits' := (bits * 64 + (n - 128))%N in
            let bytes' := bytes +:+ String c EmptyString in
            match more with
            | O => repr_code_point bits' bytes' +:+ repr_chars_from q None s'
            | S _ => repr_chars_from q (Some (more, bits', bytes')) s'
            end
          else bytes +:+ start
      | Some (O, _, bytes) => bytes +:+ start
      | None => start
      end
  end.

Definition repr_chars (q : ascii) (s : string) : string :=
  repr_chars_from q None s.

(** [repr(s)] for a [str]: single quotes, unless [s] holds one and no
    double quote. *)
Definition repr_str (s : string) : string :=
  let q := if string_mem "'"%char s && negb (string_mem "034"%char s)
           then "034"%char else "'"%char in
  String q (repr_chars q s +:+ String q EmptyString).

Fixpoint py_repr (v : pyval) : string :=
  match v with
  | VNone => "None"
  | VBool true => "True"
  | VBool false => "False"
  | VInt n => pretty n
  | VStr s => repr_str s
  | VList l => "[" +:+ String.concat ", " (List.map py_repr l) +:+ "]"
  | VDict d =>
      "{" +:+ String.concat ", "
        (List.map (fun kv => match kv with
                             | (k, x) => repr_str k +:+ ": " +:+ py_repr x
                             end) d) +:+ "}"
  end.

(** [str(v)], which is [format(v)] in an f-string. *)
Definition py_str (v : pyval) : string :=
  match v with
  | VStr s => s
  | _ => py_repr v
  end.

(** ** Exceptions *)

(** The classes the bot raises or meets.  The first four come from the
    module [exceptions]; [TypeError], [KeyError] and [AttributeError]
    are built in and raised by [check_response], [parse_status] and by
    attribute or hashing failures; [EOFError] is what [input] raises at
    the end of the input; [ExternalError] is an [Exception] raised
    inside [requests], [json] or [telegram]; [KeyboardInterrupt] is the
    one [BaseException] that is not an [Exception] which a blocking
    call can raise. *)
Inductive exn_class : Type :=
| APIResponseError
| APIStatusCodeError
| YandeksError
| TelegramError
| TypeError
| KeyError
| AttributeError
| EOFError
| ExternalError (name : string)
| KeyboardInterrupt.

Global Instance exn_class_eq_dec : EqDecision exn_class.
Proof. solve_decision. Defined.

(** An exception: its class, its argument, and [__cause__] as set by
    [raise ... from ...]. *)
#[warnings="-register-all"]
Inductive exn : Type :=
| Exn (cls : exn_class) (msg : string) (cause : option exn).

Definition exn_cls (e : exn) : exn_class := match e with Exn c _ _ => c end.
Definition exn_msg (e : exn) : string := match e with Exn _ m _ => m end.
Definition exn_cause (e : exn) : option exn := match e with Exn _ _ c => c end.

(** [isinstance(e, Exception)].

    Modelled from the spec: the module [exceptions] is imported by
    [homework.py] and is not among the sources.  Its four classes are
    the error kinds of the spec, ordinary exceptions that carry a
    message and a cause, and are taken to derive from [Exception], as
    user-defined exceptions do. *)
Definition is_Exception (e : exn) : bool :=
  match exn_cls e with
  | KeyboardInterrupt => false
  | _ => true
  end.

(** Modelled from the spec: the module [exceptions] is imported by
    [homework.py] and is not among the sources.  The spec keeps the
    notification error apart from every other failure kind, so
    [TelegramError] is taken to have no subclass among the classes
    above: [isinstance(e, TelegramError)] holds for that class alone. *)
Definition is_TelegramError (e : exn) : bool :=
  bool_decide (exn_cls e = TelegramError).

(** [str(e)]: the argument, which [KeyError] shows through [repr]. *)
Definition exn_str (e : exn) : string :=
  match exn_cls e with
  | KeyError => repr_str (exn_msg e)
  | _ => exn_msg e
  end.


(** ** Module-level state and constants *)

(** [class State(enum.Enum)]. *)
Inductive State : Type := INITIAL | RUNNING | STOPPED.

Global Instance State_eq_dec : EqDecision State.
Proof. solve_decision. Defined.

(** [os.getenv(k)] in the environment left by [load_dotenv()]. *)
Definition os_getenv (environ : gmap string string) (k : string) : option string :=
  environ !! k.

(** The three module-level names read from the environment at import. *)
Record config : Type := Config {
  PRACTICUM_TOKEN : option string;
  TELEGRAM_TOKEN : option string;
  TELEGRAM_CHAT_ID : option string
}.

Definition load_config (environ : gmap string string) : config :=
  {| PRACTICUM_TOKEN := os_getenv environ "PRACTICUM_TOKEN";
     TELEGRAM_TOKEN := os_getenv environ "TELEGA_TOKEN";
     TELEGRAM_CHAT_ID := os_getenv environ "MY_ID" |}.

(** A value of [os.getenv] as a Python value: [None] or a [str]. *)
Definition py_of_env (o : option string) : pyval :=
  match o with
  | None => VNone
  | Some s => VStr s
  end.

Definition RETRY_TIME : Z := 600.

Definition ENDPOINT : string :=
  "https://practicum.yandex.ru/api/user_api/homework_statuses/".

Definition HEADERS (cfg : config) : list (string * string) :=
  [("Authorization", "OAuth " +:+ py_str (py_of_env (PRACTICUM_TOKEN cfg)))].

Definition HOMEWORK_STATUSES : gmap string string :=
  {[ "approved" := "Работа проверена: ревьюеру всё понравилось. Ура!";
     "reviewing" := "Работа взята на проверку ревьюером.";
     "rejected" := "Работа проверена: у ревьюера есть замечания." ]}.

(** ** What the bot does to the outside, and what the outside answers *)

Inductive log_level : Type := DEBUG | INFO | ERROR | CRITICAL.

(** The calls that leave the process, in the order they are made.
    [Logged] keeps the format string and its arguments as [logging]
    receives them; [LoggedException] is [logging.exception]. *)
Inductive event : Type :=
| Logged (level : log_level) (fmt : string) (args : list pyval)
| LoggedException (text : string) (error : exn)
| HttpGet (url : string) (headers : list (string * string))
          (params : list (string * pyval))
| BotSend (chat_id : pyval) (text : string)
| Slept (seconds : Z)
| Prompted (text : string).

(** A [requests.Response], as far as the bot reads it; [json] is what
    [response.json()] returns or raises. *)
Record http_response : Type := HttpResponse {
  status_code : Z;
  reason : string;
  text : string;
  json : exn + pyval
}.

(** The answers of the outside during one pass of the loop: the clock,
    the outcome of [requests.get] and the outcome of
    [bot.send_message] ([None] when it returns). *)
Record world : Type := World {
  clock : Z;
  requests_get_result : exn + http_response;
  bot_send_result : option exn
}.

(** ** Local state of [main] and the effect monad *)

(** The two names of [main] that live across passes of the loop, and
    the calls made so far.  [status_old] is [None] or a [str]. *)
Record store : Type := Store {
  current_timestamp : pyval;
  status_old : option string;
  trace : list event
}.

Inductive result (A : Type) : Type :=
| Ok (a : A)
| Raise (e : exn).
Arguments Ok {A} a.
Arguments Raise {A} e.

(** A computation reads and updates the store and returns or raises;
    the store at a [raise] is the store the handler sees. *)
Definition M (A : Type) : Type := store → store * result A.

Global Instance M_ret : MRet M := λ A a st, (st, Ok a).

Global Instance M_bind : MBind M := λ A B f m st,
  match m st with
  | (st', Ok a) => f a st'
  | (st', Raise e) => (st', Raise e)
  end.

Definition raise {A : Type} (e : exn) : M A := λ st, (st, Raise e).

Definition gets {A : Type} (f : store → A) : M A := λ st, (st, Ok (f st)).

Definition emit (ev : event) : M unit := λ st,
  (Store (current_timestamp st) (status_old st) (trace st ++ [ev]), Ok ()).

Definition set_current_timestamp (v : pyval) : M unit := λ st,
  (Store v (status_old st) (trace st), Ok ()).

Definition set_status_old (v : option string) : M unit := λ st,
  (Store (current_timestamp st) v (trace st), Ok ()).

(** [try: body / except ...: handler / else: orelse].  [handler error]
    is [None] when no [except] clause matches. *)
Definition try_except_else {A B : Type} (body : M A)
    (handler : exn → option (M B)) (orelse : A → M B) : M B := λ st,
  match body st with
  | (st', Ok a) => orelse a st'
  | (st', Raise e) =>
      match handler e with
      | Some h => h st'
      | None => (st', Raise e)
      end
  end.

Definition try_except {A : Type} (body : M A) (handler : exn → option (M A)) : M A :=
  try_except_else body handler mret.

Definition logging_debug (fmt : string) (args : list pyval) : M unit :=
  emit (Logged DEBUG fmt args).
Definition logging_info (fmt : string) (args : list pyval) : M unit :=
  emit (Logged INFO fmt args).
Definition logging_critical (fmt : string) (args : list pyval) : M unit :=
  emit (Logged CRITICAL fmt args).
Definition logging_exception (text : string) (error : exn) : M unit :=
  emit (LoggedException text error).

(** [requests.get(url, headers=..., params=...)]. *)
Definition requests_get (w : world) (url : string)
    (headers : list (string * string)) (params : list (string * pyval))
    : M http_response :=
  emit (HttpGet url headers params) ;;
  match requests_get_result w with
  | inl e => raise e
  | inr r => mret r
  end.

(** [response.json()]. *)
Definition response_json (r : http_response) : M pyval :=
  match json r with
  | inl e => raise e
  | inr v => mret v
  end.

(** [bot.send_message(chat_id, text)]. *)
Definition bot_send_message (w : world) (chat_id : pyval) (message : string) : M unit :=
  emit (BotSend chat_id message) ;;
  match bot_send_result w with
  | Some e => raise e
  | None => mret ()
  end.

(** [v.get(k)]: only a [dict] has the attribute. *)
Definition py_get (v : pyval) (k : string) : M pyval :=
  match v with
  | VDict d => mret (dict_get d k)
  | _ => raise (Exn AttributeError
                  ("'" +:+ type_name v +:+ "' object has no attribute 'get'") None)
  end.

(** ** The functions of [homework.py] *)

(** [send_message(bot, message)]. *)
Definition send_message (cfg : config) (w : world) (message : string) : M unit :=
  try_except_else
    (logging_info "Отправляем сообщение в телеграм: %s" [VStr message] ;;
     bot_send_message w (py_of_env (TELEGRAM_CHAT_ID cfg)) message)
    (λ error,
       if is_Exception error
       then Some (raise (Exn TelegramError
                    ("Ошибка отправки сообщения в телеграм: " +:+ exn_str error)
                    (Some error)))
       else None)
    (λ _, logging_info "Сообщение в телеграм успешно отправленно" []).

(** The text of the [APIStatusCodeError] raised on a status other than 200. *)
Definition status_code_text (r : http_response) : string :=
  "Неверный ответ сервера: " +:+
  "http code = " +:+ pretty (status_code r) +:+ "; " +:+
  "reason = " +:+ reason r +:+ "; " +:+
  "content = " +:+ text r.

(** [get_api_answer(current_timestamp)]. *)
Definition get_api_answer (cfg : config) (w : world) (current_timestamp : pyval)
    : M pyval :=
  try_except_else
    (logging_info "Делаем запрос по статусу заданий с временной меткой %s"
       [current_timestamp] ;;
     let timestamp := py_or current_timestamp (VInt (clock w)) in
     let params := [("from_date", timestamp)] in
     response ← requests_get w ENDPOINT (HEADERS cfg) params;
     (if bool_decide (status_code response ≠ 200)
      then raise (Exn APIStatusCodeError (status_code_text response) None)
      else mret ()) ;;
     response_json response)
    (λ error,
       if is_Exception error
       then Some (raise (Exn YandeksError
                    "Ошибка подключения к Яндекс Практикуму" (Some error)))
       else None)
    (λ response, mret response).

(** [check_response(response)]. *)
Definition check_response (response : pyval) : M pyval :=
  match response with
  | VDict d =>
      if is_None (dict_get d "homeworks") || is_None (dict_get d "current_date")
      then raise (Exn KeyError
                    ("Словарь ответа API не содержит ключей homeworks и/или " +:+
                     "current_date") None)
      else
        match dict_get d "homeworks" with
        | VList l =>
            if negb (py_truthy (VList l))
            then logging_debug "Статус проверки не изменился" [] ;; mret (VList [])
            else mret (VList l)
        | _ => raise (Exn TypeError
                        "Ключ homeworks в ответе API не содержит списка" None)
        end
  | _ => raise (Exn TypeError "Ответ API не содержит словаря с данными" None)
  end.

(** [parse_status(homework)]. *)
Definition parse_status (homework : pyval) : M string :=
  name ← py_get homework "homework_name";
  if is_None name
  then raise (Exn KeyError
                "Словарь ответа API не содержит ключа homework_name" None)
  else
    code ← py_get homework "status";
    if is_None code
    then raise (Exn KeyError "Словарь ответа API не содержит ключа status" None)
    else
      let homework_name := name in
      let homework_status := code in
      verdict ←
        match homework_status with
        | VStr s =>
            match HOMEWORK_STATUSES !! s with
            | Some verdict => mret verdict
            | None => raise (Exn APIResponseError "Статус ответа не известен" None)
            end
        | VList _ | VDict _ =>
            raise (Exn TypeError
                     ("unhashable type: '" +:+ type_name homework_status +:+ "'") None)
        | _ => raise (Exn APIResponseError "Статус ответа не известен" None)
        end;
      let message :=
        "Изменился статус проверки работы " +:+ dq +:+ py_str homework_name +:+
        dq +:+ "." +:+ " " +:+ verdict in
      logging_debug message [] ;;
      mret message.

(** [check_tokens()]. *)
Definition check_tokens (cfg : config) : bool :=
  forallb py_truthy
    [py_of_env (PRACTICUM_TOKEN cfg);
     py_of_env (TELEGRAM_TOKEN cfg);
     py_of_env (TELEGRAM_CHAT_ID cfg)].

(** *** The body of the loop of [main] *)

(** The first three statements of the [try] block:
    [response = get_api_answer(current_timestamp)],
    [homework = check_response(response)],
    [status = parse_status(homework)]. *)
Definition fetch_validate_parse (cfg : config) (w : world) : M (pyval * string) :=
  timestamp ← gets current_timestamp;
  response ← get_api_answer cfg w timestamp;
  homework ← check_response response;
  status ← parse_status homework;
  mret (response, status).

(** The rest of the [try] block:
    [if status != status_old: send_message(bot, status); status_old = status]
    and [current_timestamp = response.get('current_date')]. *)
Definition notify_and_advance (cfg : config) (w : world)
    (response : pyval) (status : string) : M unit :=
  old ← gets status_old;
  (if bool_decide (Some status ≠ old)
   then send_message cfg w status ;; set_status_old (Some status)
   else mret ()) ;;
  date ← py_get response "current_date";
  set_current_timestamp date.

(** The [except TelegramError as error:] clause around a [try] block. *)
Definition except_TelegramError (body : M unit) : M unit :=
  try_except body
    (λ error,
       if is_TelegramError error
       then Some (let error_message := "Сбой в работе программы: " +:+ exn_str error in
                  logging_exception error_message error)
       else None).

(** The [try] statement of the loop. *)
Definition poll_cycle (cfg : config) (w : world) : M unit :=
  except_TelegramError
    ('(response, status) ← fetch_validate_parse cfg w;
     notify_and_advance cfg w response status).

(** ** The two threads and the shared [state] *)

(** Where [main] stands.  The names are those of the statement about to
    run: the [if not check_tokens()] of line 148, the
    [with state_lock: state = State.RUNNING] of line 158, the
    [with state_lock: if state == State.STOPPED] of line 166, the [try]
    of line 170 and the [time.sleep] of line 181.  [Returned] is the
    [break] followed by the end of [main], [Raised] an exception leaving
    [main], [Exited] the [sys.exit(error_message)] of line 155. *)
Inductive main_pc : Type :=
| AtCheckTokens
| AtSetRunning
| AtLoopTop
| AtTry
| AtSleep
| Returned
| Raised (e : exn)
| Exited (arg : string).

(** Where [repl] stands: about to call [input], blocked inside it,
    returned after the [break], or left by an exception. *)
Inductive repl_pc : Type :=
| AtInput
| Waiting
| ReplReturned
| ReplRaised (e : exn).

(** What the process is started with: the configuration, the clock read
    by [main] before the loop, the outcome of [telegram.Bot(token=...)]
    and the answers of the outside at each pass of the loop. *)
Record setting : Type := Setting {
  cfg : config;
  boot_clock : Z;
  bot_init : option exn;
  oracle : nat → world
}.

(** The process: the global [state], both threads, the locals of [main]
    with the calls made so far, the number of completed passes, and the
    console input still to come ([Some line], or [None] for the end of
    input; an empty list is a console nobody has typed on yet). *)
Record system : Type := System {
  state : State;
  main_at : main_pc;
  repl_at : repl_pc;
  vars : store;
  pass : nat;
  stdin : list (option string)
}.

Definition startup_error_message : string :=
  "Отсутсвтуют обязательные переменные окружения: " +:+
  "PRACTICUM_TOKEN, TELEGRAM_TOKEN, TELEGRAM_CHAT_ID. " +:+
  "Программа принудительно остановлена".

Definition repl_prompt : string :=
  "Please, press " +:+ dq +:+ "s" +:+ dq +:+ " to stop".

Definition record (ev : event) (st : store) : store :=
  Store (current_timestamp st) (status_old st) (trace st ++ [ev]).

(** One statement of [main]. *)
Definition main_step (env : setting) (s : system) : system :=
  match main_at s with
  | AtCheckTokens =>
      if negb (check_tokens (cfg env))
      then System (state s) (Exited startup_error_message) (repl_at s)
             (record (Logged CRITICAL startup_error_message []) (vars s))
             (pass s) (stdin s)
      else System (state s) AtSetRunning (repl_at s) (vars s) (pass s) (stdin s)
  | AtSetRunning =>
      match bot_init env with
      | Some e => System RUNNING (Raised e) (repl_at s) (vars s) (pass s) (stdin s)
      | None =>
          System RUNNING AtLoopTop (repl_at s)
            (Store (VInt (boot_clock env)) None (trace (vars s)))
            (pass s) (stdin s)
      end
  | AtLoopTop =>
      if bool_decide (state s = STOPPED)
      then System (state s) Returned (repl_at s) (vars s) (pass s) (stdin s)
      else System (state s) AtTry (repl_at s) (vars s) (pass s) (stdin s)
  | AtTry =>
      match poll_cycle (cfg env) (oracle env (pass s)) (vars s) with
      | (st, Ok _) => System (state s) AtSleep (repl_at s) st (pass s) (stdin s)
      | (st, Raise e) => System (state s) (Raised e) (repl_at s) st (pass s) (stdin s)
      end
  | AtSleep =>
      System (state s) AtLoopTop (repl_at s)
        (record (Slept RETRY_TIME) (vars s)) (S (pass s)) (stdin s)
  | Returned | Raised _ | Exited _ => s
  end.

(** One statement of [repl]. *)
Definition repl_step (s : system) : system :=
  match repl_at s with
  | AtInput =>
      System (state s) (main_at s) Waiting
        (record (Prompted repl_prompt) (vars s)) (pass s) (stdin s)
  | Waiting =>
      match stdin s with
      | [] => s
      | None :: rest =>
          System (state s) (main_at s) (ReplRaised (Exn EOFError "EOF when reading a line" None))
            (vars s) (pass s) rest
      | Some command :: rest =>
          if bool_decide (command = "s")
          then System STOPPED (main_at s) ReplReturned (vars s) (pass s) rest
          else System (state s) (main_at s) AtInput (vars s) (pass s) rest
      end
  | ReplReturned | ReplRaised _ => s
  end.

Inductive thread : Type := MainThread | ReplThread.

Definition step (env : setting) (t : thread) (s : system) : system :=
  match t with
  | MainThread => main_step env s
  | ReplThread => repl_step s
  end.

(** The process after the threads have run in the order [schedule]. *)
Fixpoint run (env : setting) (schedule : list thread) (s : system) : system :=
  match schedule with
  | [] => s
  | t :: schedule' => run env schedule' (step env t s)
  end.

(** The process as [python homework.py] starts it: [state] is
    [State.INITIAL], [repl_thread.start()] has been called and [main()]
    is about to be.  The locals of [main] are not bound yet. *)
Definition boot (input : list (option string)) : system :=
  System INITIAL AtCheckTokens AtInput (Store VNone None []) 0 input.

(** The exit status that the end of [main] asks for: 0 when [main]
    returns, 1 when it leaves through [sys.exit] with a string, which
    the interpreter prints.  The interpreter exits with it once [repl],
    which is not a daemon thread, has ended too. *)
Definition exit_status (p : main_pc) : option Z :=
  match p with
  | Returned => Some 0
  | Exited _ => Some 1
  | _ => None
  end.

(** The calls of [requests.get] and of [bot.send_message] in a trace. *)
Definition is_network_call (ev : event) : bool :=
  match ev with
  | HttpGet _ _ _ | BotSend _ _ => true
  | _ => false
  end.

Definition network_calls (tr : list event) : list event :=
  List.filter is_network_call tr.

Definition is_bot_send (ev : event) : bool :=
  match ev with
  | BotSend _ _ => true
  | _ => false
  end.

Definition bot_sends (tr : list event) : list event :=
  List.filter is_bot_send tr.

(** ** Sample inputs *)

Definition sample_config : config :=
  load_config {[ "PRACTICUM_TOKEN" := "y0_token"; "TELEGA_TOKEN" := "42:bot";
                 "MY_ID" := "1001" ]}.

Definition hw1_approved : pyval :=
  VDict [("homework_name", VStr "hw1"); ("status", VStr "approved")].

(** [{"homeworks": [{"homework_name": "hw1", "status": "approved"}], "current_date": 1000}] *)
Definition payload_A : pyval :=
  VDict [("homeworks", VList [hw1_approved]); ("current_date", VInt 1000)].

(** [{"homeworks": [], "current_date": 1000}] *)
Definition payload_B : pyval :=
  VDict [("homeworks", VList []); ("current_date", VInt 1000)].

Definition world_200 (payload : pyval) : world :=
  World 900 (inr (HttpResponse 200 "OK" "" (inr payload))) None.

Definition world_500 : world :=
  World 900 (inr (HttpResponse 500 "Internal Server Error" "oops" (inr VNone))) None.

Definition store_0 : store := Store (VInt 800) None [].

(** An environment that gives the same answers at every pass, with the
    three tokens set. *)
Definition env_of (w : world) : setting :=
  Setting sample_config 800 None (λ _, w).

(** [main] about to enter the [try] block, [repl] waiting for a line. *)
Definition at_try (st : store) : system :=
  System RUNNING AtTry Waiting st 0 [].

(** [main] asleep between two passes, the line [s] about to be read. *)
Definition asleep : system :=
  System RUNNING AtSleep Waiting store_0 0 [Some "s"].

Definition world_send_fails : world :=
  World 900 (inr (HttpResponse 200 "OK" "" (inr payload_A)))
    (Some (Exn (ExternalError "NetworkError") "timed out" None)).

Definition world_unreachable : world :=
  World 900 (inl (Exn (ExternalError "ConnectionError") "Name or service not known" None))
    None.

Definition connection_error_text : string :=
  "Ошибка подключения к Яндекс Практикуму".

Definition error_500 : exn :=
  Exn YandeksError connection_error_text
    (Some (Exn APIStatusCodeError
             "Неверный ответ сервера: http code = 500; reason = Internal Server Error; content = oops"
             None)).

Definition message_hw1_approved : string :=
  "Изменился статус проверки работы " +:+ dq +:+ "hw1" +:+ dq +:+
  ". Работа проверена: ревьюеру всё понравилось. Ура!".

Definition list_has_no_get : exn :=
  Exn AttributeError "'list' object has no attribute 'get'" None.

Definition environ_empty_chat_id : gmap string string :=
  {[ "PRACTICUM_TOKEN" := "y0_token"; "TELEGA_TOKEN" := "42:bot"; "MY_ID" := "" ]}.


(** The operator types [s] at once: [repl] prints its prompt and reads
    the line before [main] has run a statement. *)
Definition env_stop_first : setting := env_of world_500.

Definition stop_first : list thread := [ReplThread; ReplThread].

(** ** Notions used in the statements *)

(** The two locals of [main] are the same in both stores. *)
Definition same_locals (st st' : store) : Prop :=
  current_timestamp st' = current_timestamp st ∧ status_old st' = status_old st.

Definition is_exception_log (ev : event) : bool :=
  match ev with
  | LoggedException _ _ => true
  | _ => false
  end.

Definition exception_logs (tr : list event) : list event :=
  List.filter is_exception_log tr.

(** Neither a [logging.exception] line nor a message to the chat was
    added between two stores. *)
Definition unreported (st st' : store) : Prop :=
  exception_logs (trace st') = exception_logs (trace st) ∧
  bot_sends (trace st') = bot_sends (trace st).

(** What [get_api_answer] sends: one request, after one [info] line. *)
Definition request_events (cfg : config) (w : world) (cursor : pyval) : list event :=
  [Logged INFO "Делаем запрос по статусу заданий с временной меткой %s" [cursor];
   HttpGet ENDPOINT (HEADERS cfg) [("from_date", py_or cursor (VInt (clock w)))]].

(** What [get_api_answer] returns or raises, read off the answer of the
    outside; [get_api_answer_eq] below shows that it is so. *)
Definition api_outcome (w : world) : result pyval :=
  let wrap error :=
    if is_Exception error
    then Raise (Exn YandeksError "Ошибка подключения к Яндекс Практикуму" (Some error))
    else Raise error in
  match requests_get_result w with
  | inl e => wrap e
  | inr r =>
      if bool_decide (status_code r ≠ 200)
      then wrap (Exn APIStatusCodeError (status_code_text r) None)
      else match json r with
           | inl e => wrap e
           | inr v => Ok v
           end
  end.

(** The [from_date] parameters of the requests of a trace. *)
Definition from_dates (tr : list event) : list pyval :=
  flat_map (λ ev, match ev with
                  | HttpGet _ _ params => [dict_get params "from_date"]
                  | _ => []
                  end) tr.

(** The rest of the [try] block under the [except TelegramError]
    clause: lines 174 to 180 of [main], entered with a parsed [status]. *)
Definition notify_guarded (cfg : config) (w : world)
    (response : pyval) (status : string) : M unit :=
  except_TelegramError (notify_and_advance cfg w response status).

(** The names under which the three tokens are read. *)
Definition token_names : list string := ["PRACTICUM_TOKEN"; "TELEGA_TOKEN"; "MY_ID"].

(** [main] has ended: it returned, raised, or left through [sys.exit]. *)
Definition main_ended (p : main_pc) : bool :=
  match p with
  | Returned | Raised _ | Exited _ => true
  | _ => false
  end.

(** [main] is past its [state = State.RUNNING]. *)
Definition started (p : main_pc) : bool :=
  match p with
  | AtCheckTokens | AtSetRunning => false
  | _ => true
  end.

(** [main] is between two passes of the loop or has returned. *)
Definition between_passes (p : main_pc) : bool :=
  match p with
  | AtSleep | AtLoopTop | Returned => true
  | _ => false
  end.

Definition is_main (t : thread) : bool :=
  match t with
  | MainThread => true
  | ReplThread => false
  end.

(** The turns of [main] in a schedule. *)
Definition main_turns (schedule : list thread) : nat :=
  length (List.filter is_main schedule).

(** The statements of [main] still to run before it returns, once it
    is between two passes with [state] stopped. *)
Definition turns_to_return (p : main_pc) : nat :=
  match p with
  | AtSleep => 2
  | AtLoopTop => 1
  | _ => 0
  end.


Ltac sends_simpl :=
  simpl; rewrite <- ?app_assoc; unfold bot_sends;
  rewrite ?List.filter_app; simpl; rewrite ?app_nil_r.

(** *** Further notions *)

(** The keys of [HOMEWORK_STATUSES]. *)
Definition status_codes : list string := ["approved"; "reviewing"; "rejected"].

(** The text of a notification for a name and a verdict, as the
    f-string of [parse_status] builds it. *)
Definition status_message (homework_name : pyval) (verdict : string) : string :=
  "Изменился статус проверки работы " +:+ dq +:+ py_str homework_name +:+
  dq +:+ "." +:+ " " +:+ verdict.

Definition missing_keys_error : exn :=
  Exn KeyError
    "Словарь ответа API не содержит ключей homeworks и/или current_date" None.

Definition not_a_dict_error : exn :=
  Exn TypeError "Ответ API не содержит словаря с данными" None.

Definition not_a_list_error : exn :=
  Exn TypeError "Ключ homeworks в ответе API не содержит списка" None.

Definition missing_name_error : exn :=
  Exn KeyError "Словарь ответа API не содержит ключа homework_name" None.

Definition missing_status_error : exn :=
  Exn KeyError "Словарь ответа API не содержит ключа status" None.

Definition unknown_status_error : exn :=
  Exn APIResponseError "Статус ответа не известен" None.

(** The two [info] lines of [send_message] and the text of its error. *)
Definition sending_line (message : string) : event :=
  Logged INFO "Отправляем сообщение в телеграм: %s" [VStr message].

Definition sent_line : event :=
  Logged INFO "Сообщение в телеграм успешно отправленно" [].

Definition telegram_error (error : exn) : exn :=
  Exn TelegramError ("Ошибка отправки сообщения в телеграм: " +:+ exn_str error)
    (Some error).

(** The line that [main] logs for a [TelegramError]. *)
Definition failure_line (error : exn) : event :=
  LoggedException ("Сбой в работе программы: " +:+ exn_str error) error.

(** No line of the console input is the stop command. *)
Definition no_stop_command (input : list (option string)) : Prop :=
  Some "s" ∉ input.

(** [repl] has ended. *)
Definition repl_ended (p : repl_pc) : bool :=
  match p with
  | ReplReturned | ReplRaised _ => true
  | _ => false
  end.

(** Sample values for the further properties. *)
Definition payload_no_date : pyval :=
  VDict [("homeworks", VInt 7)].

Definition payload_homeworks_int : pyval :=
  VDict [("homeworks", VInt 7); ("current_date", VInt 1000)].

Definition hw1_unknown : pyval :=
  VDict [("homework_name", VStr "hw1"); ("status", VStr "unknown")].

Definition hw1_no_name : pyval :=
  VDict [("status", VInt 3)].

Definition keyboard_interrupt : exn := Exn KeyboardInterrupt "" None.

Definition world_bad_json : world :=
  World 900 (inr (HttpResponse 200 "OK" "<html>"
                    (inl (Exn (ExternalError "JSONDecodeError") "Expecting value" None))))
    None.

(** The one request that [main] makes when it is started with the
    tokens: it asks from the clock read before the loop. *)
Definition first_request (env : setting) : event :=
  HttpGet ENDPOINT (HEADERS (cfg env))
    [("from_date", py_or (VInt (boot_clock env)) (VInt (clock (oracle env 0))))].

(** What holds of the process from its start on: [main] is in its
    first pass, is never asleep, and has made no request before the
    [try] block and at most the first request after it. *)
Definition first_pass (env : setting) (s : system) : Prop :=
  pass s = 0%nat ∧
  match main_at s with
  | AtLoopTop | AtTry =>
      network_calls (trace (vars s)) = [] ∧
      current_timestamp (vars s) = VInt (boot_clock env)
  | AtSleep => False
  | Raised _ =>
      network_calls (trace (vars s)) = [] ∨
      network_calls (trace (vars s)) = [first_request env]
  | _ => network_calls (trace (vars s)) = []
  end.

(** What holds of the process while nobody has typed the stop command. *)
Definition never_stopped (s : system) : Prop :=
  state s ≠ STOPPED ∧ main_at s ≠ Returned ∧ no_stop_command (stdin s).

(** ** Properties *)

(** *** [repr] *)

(** [repr] escapes a no-break space, inside a list too, and prints
    Cyrillic letters as they are. *)
Lemma py_str_no_break_space :
  py_str (VList [VStr (String "194" (String "160" EmptyString)); VStr "Ура"]) =
  "['\xa0', 'Ура']".
Proof. vm_compute. reflexivity. Qed.

(** *** Locals and traces *)

Lemma same_locals_refl st : same_locals st st.
Proof. by split. Qed.

Lemma same_locals_trans st1 st2 st3 :
  same_locals st1 st2 → same_locals st2 st3 → same_locals st1 st3.
Proof. intros [H1 H2] [H3 H4]. split; congruence. Qed.

Lemma unreported_refl st : unreported st st.
Proof. by split. Qed.

Lemma unreported_trans st1 st2 st3 :
  unreported st1 st2 → unreported st2 st3 → unreported st1 st3.
Proof. intros [H1 H2] [H3 H4]. split; congruence. Qed.

Lemma unreported_record ev st :
  is_exception_log ev = false → is_bot_send ev = false →
  unreported st (record ev st).
Proof.
  intros H1 H2. unfold unreported, exception_logs, bot_sends. simpl.
  rewrite !List.filter_app. simpl. rewrite H1, H2. by rewrite !app_nil_r.
Qed.

(** *** The three functions before the notification *)

(** [get_api_answer] in closed form. *)
Lemma get_api_answer_eq cfg w cursor st :
  get_api_answer cfg w cursor st =
  (Store (current_timestamp st) (status_old st)
     (trace st ++ request_events cfg w cursor),
   api_outcome w).
Proof.
  unfold request_events, get_api_answer, api_outcome, try_except_else, requests_get,
    response_json, logging_info, emit, raise, mbind, M_bind, mret, M_ret.
  simpl. rewrite <- !app_assoc. simpl.
  destruct (requests_get_result w) as [e|r]; simpl.
  - by destruct (is_Exception e).
  - case_bool_decide; simpl; [done|].
    destruct (json r) as [e|v]; simpl; [|done].
    by destruct (is_Exception e).
Qed.

Lemma api_outcome_not_telegram w e :
  api_outcome w = Raise e → is_TelegramError e = false.
Proof.
  unfold api_outcome.
  assert (Hwrap : ∀ error,
    (if is_Exception error
     then Raise (Exn YandeksError "Ошибка подключения к Яндекс Практикуму" (Some error))
     else @Raise pyval error) = Raise e → is_TelegramError e = false).
  { intros [c m k]. unfold is_Exception, is_TelegramError. simpl.
    destruct c; simpl; intros [= <-]; done. }
  destruct (requests_get_result w) as [e'|r]; [apply Hwrap|].
  case_bool_decide; [apply Hwrap|].
  destruct (json r) as [e'|v]; [apply Hwrap|done].
Qed.

Lemma get_api_answer_quiet cfg w cursor st :
  same_locals st (get_api_answer cfg w cursor st).1 ∧
  unreported st (get_api_answer cfg w cursor st).1.
Proof.
  rewrite get_api_answer_eq. simpl. split; [done|].
  unfold unreported, exception_logs, bot_sends, request_events. simpl.
  rewrite !List.filter_app. simpl. by rewrite !app_nil_r.
Qed.

(** [check_response] returns nothing but a list. *)
Lemma check_response_returns_list response st st' v :
  check_response response st = (st', Ok v) →
  (∃ l, v = VList l) ∧ same_locals st st' ∧ unreported st st'.
Proof.
  unfold check_response.
  destruct response as [| | | |l|d]; try discriminate.
  destruct (is_None _ || is_None _); [discriminate|].
  destruct (dict_get d "homeworks") as [| | | |l|d']; try discriminate.
  destruct l as [|x l]; simpl.
  - intros [= <- <-]. split_and!; [by exists []|done|].
    by apply (unreported_record (Logged DEBUG _ _)).
  - intros [= <- <-]. split_and!; [by eexists|done|done].
Qed.

Lemma check_response_raises response st st' e :
  check_response response st = (st', Raise e) →
  is_TelegramError e = false ∧ st' = st.
Proof.
  unfold check_response.
  destruct response as [| | | |l|d]; try (intros [= <- <-]; done).
  destruct (is_None _ || is_None _); [intros [= <- <-]; done|].
  destruct (dict_get d "homeworks") as [| | | |l|d']; try (intros [= <- <-]; done).
  destruct l as [|x l]; simpl; discriminate.
Qed.

(** A list has no [get]: [parse_status] raises on every list. *)
Lemma parse_status_list l st :
  parse_status (VList l) st =
  (st, Raise (Exn AttributeError "'list' object has no attribute 'get'" None)).
Proof. reflexivity. Qed.

(** The first three statements of the [try] block never complete:
    whatever the outside answers, the list that [check_response] returns
    goes to [parse_status] as it is.  The error they raise is never a
    [TelegramError]; the locals are as they were, nothing was sent to
    the chat and no [logging.exception] line was written. *)
Lemma fetch_validate_parse_raises cfg w st :
  ∃ st' e, fetch_validate_parse cfg w st = (st', Raise e) ∧
           is_TelegramError e = false ∧ same_locals st st' ∧ unreported st st'.
Proof.
  unfold fetch_validate_parse, gets, mbind, M_bind.
  destruct (get_api_answer_quiet cfg w (current_timestamp st) st) as [Hloc0 Hun0].
  rewrite get_api_answer_eq in *. simpl in Hloc0, Hun0.
  destruct (api_outcome w) as [response|e] eqn:Hapi.
  - destruct (check_response response _) as [st1 [v|e]] eqn:Hcheck.
    + apply check_response_returns_list in Hcheck as ([l ->] & Hloc & Hun).
      rewrite parse_status_list. eexists _, _. split_and!; [done|done|done|].
      by eapply unreported_trans.
    + apply check_response_raises in Hcheck as [He ->].
      eexists _, _. by split_and!.
  - apply api_outcome_not_telegram in Hapi.
    eexists _, _. by split_and!.
Qed.

(** An error of the first three statements is not for the
    [except TelegramError] clause: the [try] statement raises it on. *)
Lemma poll_cycle_propagates cfg w st st' e :
  fetch_validate_parse cfg w st = (st', Raise e) →
  is_TelegramError e = false →
  poll_cycle cfg w st = (st', Raise e).
Proof.
  intros Hfvp He.
  unfold poll_cycle, except_TelegramError, try_except, try_except_else, mbind, M_bind.
  by rewrite Hfvp, He.
Qed.

(** A thread that has ended stays where it is. *)
Lemma main_step_Raised env s e :
  main_at s = Raised e → main_step env s = s.
Proof. intros H. unfold main_step. by rewrite H. Qed.

Lemma main_step_Returned env s :
  main_at s = Returned → main_step env s = s.
Proof. intros H. unfold main_step. by rewrite H. Qed.


(** [repl] leaves [main] and its locals alone, and prints nothing but
    its prompt. *)
Lemma repl_step_main s :
  main_at (repl_step s) = main_at s ∧
  pass (repl_step s) = pass s ∧
  same_locals (vars s) (vars (repl_step s)) ∧
  network_calls (trace (vars (repl_step s))) = network_calls (trace (vars s)).
Proof.
  unfold repl_step.
  destruct (repl_at s); simpl; try by split_and!.
  - split_and!; try done.
    unfold network_calls. by rewrite List.filter_app, app_nil_r.
  - destruct (stdin s) as [|[command|] rest]; simpl; try by split_and!.
    case_bool_decide; by split_and!.
Qed.

(** Once [main] has ended, no schedule moves it, changes its locals or
    makes a network call. *)
Lemma run_main_ended env schedule s :
  main_ended (main_at s) = true →
  main_at (run env schedule s) = main_at s ∧
  same_locals (vars s) (vars (run env schedule s)) ∧
  network_calls (trace (vars (run env schedule s))) = network_calls (trace (vars s)).
Proof.
  revert s. induction schedule as [|t schedule IH]; intros s Hend; simpl.
  - by split_and!.
  - destruct t; simpl.
    + replace (main_step env s) with s; [by apply IH|].
      unfold main_step. by destruct (main_at s).
    + destruct (repl_step_main s) as (Hm & _ & Hloc & Hnet).
      destruct (IH (repl_step s)) as (IH1 & IH2 & IH3); [by rewrite Hm|].
      split_and!; [congruence|by eapply same_locals_trans|congruence].
Qed.

(** *** Errors of the first three statements of the [try] block *)

(** C1, as amended.  When [get_api_answer], [check_response] or
    [parse_status] raises an error that is not a [TelegramError], the
    [try] statement of [main] does not catch it: the error leaves
    [main] and the polling loop ends at that pass.  The cursor and the
    last notified message are as they were before the pass, no
    [logging.exception] line is written, and whatever runs afterwards,
    [main] makes no further pass and no further network call. *)
Theorem C1_error_leaves_main env s st' e :
  main_at s = AtTry →
  fetch_validate_parse (cfg env) (oracle env (pass s)) (vars s) = (st', Raise e) →
  is_TelegramError e = false →
  main_at (main_step env s) = Raised e ∧
  vars (main_step env s) = st' ∧
  same_locals (vars s) st' ∧
  exception_logs (trace st') = exception_logs (trace (vars s)) ∧
  ∀ schedule,
    main_at (run env schedule (main_step env s)) = Raised e ∧
    same_locals (vars s) (vars (run env schedule (main_step env s))) ∧
    network_calls (trace (vars (run env schedule (main_step env s)))) =
      network_calls (trace st').
Proof.
  intros Hat Hfvp He.
  destruct (fetch_validate_parse_raises (cfg env) (oracle env (pass s)) (vars s))
    as (st1 & e1 & Hfvp1 & _ & Hloc & Hun & _).
  rewrite Hfvp in Hfvp1. injection Hfvp1 as <- <-.
  assert (Hstep : main_step env s =
    System (state s) (Raised e) (repl_at s) st' (pass s) (stdin s)).
  { unfold main_step. rewrite Hat.
    by rewrite (poll_cycle_propagates _ _ _ _ _ Hfvp He). }
  rewrite Hstep. simpl. split_and!; try done.
  intros schedule.
  destruct (run_main_ended env schedule
              (System (state s) (Raised e) (repl_at s) st' (pass s) (stdin s)))
    as (H1 & H2 & H3); [done|].
  simpl in *. split_and!; [done| |done].
  by eapply same_locals_trans.
Qed.

Lemma C1_error_leaves_main_witness :
  main_at (main_step (env_of world_500) (at_try store_0)) = Raised error_500 ∧
  current_timestamp (vars (main_step (env_of world_500) (at_try store_0))) = VInt 800.
Proof.
  destruct (C1_error_leaves_main (env_of world_500) (at_try store_0)
              (Store (VInt 800) None (request_events sample_config world_500 (VInt 800)))
              error_500)
    as (H1 & H2 & _); [reflexivity | reflexivity | reflexivity |].
  split; [exact H1 | by rewrite H2].
Defined.

(** C1, as the specification states it, fails on an HTTP 500 answer:
    [get_api_answer] raises a [YandeksError], which is not a
    [TelegramError]; the loop does not go on to [time.sleep] and the
    next pass, [main] ends with that error.  It fails in the same way
    on an answer whose body is the JSON array [[]], where
    [check_response] raises the built-in [TypeError]. *)
Lemma C1_upstream_error_ends_loop :
  main_at (main_step (env_of world_500) (at_try store_0)) = Raised error_500 ∧
  main_at (main_step (env_of (world_200 (VList []))) (at_try store_0))
    = Raised (Exn TypeError "Ответ API не содержит словаря с данными" None) ∧
  ¬ (∀ env s st' e,
       main_at s = AtTry →
       fetch_validate_parse (cfg env) (oracle env (pass s)) (vars s) = (st', Raise e) →
       is_TelegramError e = false →
       main_at (main_step env s) = AtSleep ∧
       current_timestamp (vars (main_step env s)) = current_timestamp (vars s)).
Proof.
  split_and!; [reflexivity | reflexivity |].
  intros Hclaim.
  destruct (Hclaim (env_of world_500) (at_try store_0)
              (Store (VInt 800) None (request_events sample_config world_500 (VInt 800)))
              error_500) as [Hat _]; [reflexivity | reflexivity | reflexivity |].
  discriminate Hat.
Qed.

(** *** What [parse_status] is given *)

(** On a record, a mapping with a name and a known status,
    [parse_status] returns the sentence built from the name and the
    verdict looked up in [HOMEWORK_STATUSES]. *)
Lemma parse_status_record d name code verdict st :
  dict_get d "homework_name" = VStr name →
  dict_get d "status" = VStr code →
  HOMEWORK_STATUSES !! code = Some verdict →
  let message :=
    "Изменился статус проверки работы " +:+ dq +:+ name +:+ dq +:+ "." +:+ " " +:+ verdict in
  parse_status (VDict d) st = (record (Logged DEBUG message []) st, Ok message).
Proof.
  intros Hname Hcode Hverdict. simpl.
  unfold parse_status, py_get, mbind, M_bind, mret, M_ret. simpl.
  rewrite Hname, Hcode. simpl. by rewrite Hverdict.
Qed.

(** A payload whose [homeworks] is an empty list and whose
    [current_date] is there passes [check_response], which returns an
    empty list after a [debug] line. *)
Lemma check_response_empty d st :
  dict_get d "homeworks" = VList [] →
  dict_get d "current_date" ≠ VNone →
  check_response (VDict d) st =
  (record (Logged DEBUG "Статус проверки не изменился" []) st, Ok (VList [])).
Proof.
  intros Hhw Hdate. unfold check_response. rewrite Hhw. simpl.
  by destruct (dict_get d "current_date").
Qed.

(** Whenever [check_response] accepts the answer of the API, the [try]
    statement raises the [AttributeError] of [parse_status] on a list:
    nothing is sent, and the locals stay as they were. *)
Lemma accepted_answer_raises cfg w st response :
  api_outcome w = Ok response →
  ∀ st1 v, check_response response (get_api_answer cfg w (current_timestamp st) st).1
           = (st1, Ok v) →
  poll_cycle cfg w st = (st1, Raise list_has_no_get) ∧
  same_locals st st1 ∧ unreported st st1.
Proof.
  intros Hapi st1 v Hcheck.
  destruct (get_api_answer_quiet cfg w (current_timestamp st) st) as [Hloc0 Hun0].
  pose proof Hcheck as Hlist.
  apply check_response_returns_list in Hlist as ([l ->] & Hloc & Hun).
  assert (Hfvp : fetch_validate_parse cfg w st = (st1, Raise list_has_no_get)).
  { unfold fetch_validate_parse, gets, mbind, M_bind.
    rewrite get_api_answer_eq in *. rewrite Hapi. simpl in Hcheck.
    by rewrite Hcheck. }
  split_and!.
  - by apply poll_cycle_propagates.
  - by eapply same_locals_trans.
  - by eapply unreported_trans.
Qed.

(** C2.  On the answer
    [{"homeworks": [{"homework_name": "hw1", "status": "approved"}], "current_date": 1000}]
    [check_response] returns the list of one record, and
    [parse_status] on that record would return the message that holds
    its name and the verdict of [approved]; but [main] hands the list
    itself to [parse_status], which raises [AttributeError]: no message
    is obtained or sent, and [main] ends with that error. *)
Theorem C2_parse_status_is_given_the_list :
  (check_response payload_A store_0).2 = Ok (VList [hw1_approved]) ∧
  (parse_status hw1_approved store_0).2 = Ok message_hw1_approved ∧
  (fetch_validate_parse sample_config (world_200 payload_A) store_0).2
    = Raise list_has_no_get ∧
  bot_sends (trace (poll_cycle sample_config (world_200 payload_A) store_0).1) = [] ∧
  main_at (main_step (env_of (world_200 payload_A)) (at_try store_0))
    = Raised list_has_no_get.
Proof. by split_and!. Qed.

(** C5.  On the answer [{"homeworks": [], "current_date": 1000}]
    [check_response] returns an empty list without an error, and no
    notification is sent; but [main] hands that list to [parse_status],
    which raises [AttributeError]: the pass raises an error, the cursor
    stays at its old value 800 instead of moving to 1000, and [main]
    ends with that error. *)
Theorem C5_empty_homeworks_pass_raises :
  (check_response payload_B store_0).2 = Ok (VList []) ∧
  bot_sends (trace (poll_cycle sample_config (world_200 payload_B) store_0).1) = [] ∧
  (poll_cycle sample_config (world_200 payload_B) store_0).2 = Raise list_has_no_get ∧
  current_timestamp (poll_cycle sample_config (world_200 payload_B) store_0).1
    = VInt 800 ∧
  main_at (main_step (env_of (world_200 payload_B)) (at_try store_0))
    = Raised list_has_no_get.
Proof. by split_and!. Qed.

(** *** The notification and the last notified message *)

(** A [try] block whose first statements complete goes on, under the
    same [except] clause, with the rest; so does the [try] statement of
    the loop after its first three statements. *)
Lemma except_TelegramError_after (m : M (pyval * string))
    (k : pyval → string → M unit) st st1 response status :
  m st = (st1, Ok (response, status)) →
  except_TelegramError ('(r, s) ← m; k r s) st =
  except_TelegramError (k response status) st1.
Proof.
  intros Hm.
  unfold except_TelegramError, try_except, try_except_else, mbind, M_bind.
  by rewrite Hm.
Qed.

(** [send_message]: one call of [bot.send_message] between two [info]
    lines, or a [TelegramError] made from the failure of the call. *)
Lemma send_message_eq cfg w message st :
  send_message cfg w message st =
  let st1 :=
    record (BotSend (py_of_env (TELEGRAM_CHAT_ID cfg)) message)
      (record (Logged INFO "Отправляем сообщение в телеграм: %s" [VStr message]) st) in
  match bot_send_result w with
  | None => (record (Logged INFO "Сообщение в телеграм успешно отправленно" []) st1, Ok ())
  | Some error =>
      (st1,
       Raise (if is_Exception error
              then Exn TelegramError
                     ("Ошибка отправки сообщения в телеграм: " +:+ exn_str error)
                     (Some error)
              else error))
  end.
Proof.
  unfold send_message, try_except_else, bot_send_message, logging_info, emit, record,
    raise, mbind, M_bind, mret, M_ret.
  simpl.
  destruct (bot_send_result w) as [error|]; simpl; [|done].
  by destruct (is_Exception error).
Qed.

(** The notification step on its own, entered with any message in
    place of a parsed one: [bot.send_message] is called if and only if
    the message differs from the last notified one, and then once, with
    that message.  The last notified message becomes the sent message
    when the call returns and stays as it was when the call fails;
    after a failure that is an [Exception] the step ends normally with
    cursor and last message unchanged, so that a later step with the
    same message whose call returns sends that message again. *)
Lemma notify_step_sends_iff_changed cfg w response status st :
  let changed := bool_decide (Some status ≠ status_old st) in
  let st' := (notify_guarded cfg w response status st).1 in
  bot_sends (trace st') =
    bot_sends (trace st) ++
    (if changed then [BotSend (py_of_env (TELEGRAM_CHAT_ID cfg)) status] else []) ∧
  status_old st' =
    (if changed
     then match bot_send_result w with
          | None => Some status
          | Some _ => status_old st
          end
     else status_old st) ∧
  (∀ error, changed = true → bot_send_result w = Some error →
            is_Exception error = true →
     (notify_guarded cfg w response status st).2 = Ok () ∧
     same_locals st st' ∧
     ∀ w2 response2, bot_send_result w2 = None →
       let st'' := (notify_guarded cfg w2 response2 status st').1 in
       bot_sends (trace st'') =
         bot_sends (trace st') ++ [BotSend (py_of_env (TELEGRAM_CHAT_ID cfg)) status] ∧
       status_old st'' = Some status).
Proof.
  assert (Hsend : ∀ w0 response0 st0,
    let changed := bool_decide (Some status ≠ status_old st0) in
    let out := notify_guarded cfg w0 response0 status st0 in
    bot_sends (trace out.1) =
      bot_sends (trace st0) ++
      (if changed then [BotSend (py_of_env (TELEGRAM_CHAT_ID cfg)) status] else []) ∧
    status_old out.1 =
      (if changed
       then match bot_send_result w0 with
            | None => Some status
            | Some _ => status_old st0
            end
       else status_old st0) ∧
    (∀ error, changed = true → bot_send_result w0 = Some error →
              is_Exception error = true →
              out.2 = Ok () ∧ same_locals st0 out.1)).
  { intros w0 response0 st0. simpl.
    unfold notify_guarded, except_TelegramError, try_except, try_except_else,
      notify_and_advance, gets, mbind, M_bind.
    case_bool_decide as Hchanged.
    - rewrite send_message_eq. simpl.
      destruct (bot_send_result w0) as [error|] eqn:Hres.
      + destruct (is_Exception error) eqn:Hexc; simpl.
        * unfold logging_exception, emit. sends_simpl. by split_and!.
        * replace (is_TelegramError error) with false
            by (destruct error as [[] ? ?]; done).
          sends_simpl. split_and!; try done.
          intros error' _ [= <-]. congruence.
      + unfold set_status_old, py_get, set_current_timestamp, raise, mret, M_ret.
        destruct response0; sends_simpl; by split_and!.
    - unfold py_get, set_current_timestamp, raise, mret, M_ret.
      destruct response0; sends_simpl; by split_and!. }
  simpl.
  destruct (Hsend w response st) as (Hs1 & Hs2 & Hs3). simpl in *.
  split_and!; [done|done|].
  intros error Hchanged Hres Hexc.
  destruct (Hs3 error Hchanged Hres Hexc) as [Hok [Hts Hold]].
  split_and!; [done|by split|].
  intros w2 response2 Hres2.
  destruct (Hsend w2 response2 (notify_guarded cfg w response status st).1)
    as (Hn1 & Hn2 & _). simpl in *.
  rewrite Hold in Hn1, Hn2. rewrite Hchanged in Hn1, Hn2.
  rewrite Hres2 in Hn2. by split.
Qed.

(** *** The error of a status other than 200 *)

(** C4, as amended.  For every answer of the API with a status other
    than 200, [get_api_answer] fails with a [YandeksError], the error
    kind and text it also gives for a failed connection; the
    [APIStatusCodeError] that carries the status code, the reason
    phrase and the raw body is the cause of that error, and it is the
    [YandeksError] that reaches the caller. *)
Theorem C4_non_200_raises_YandeksError cfg w cursor st r :
  requests_get_result w = inr r →
  status_code r ≠ 200 →
  (get_api_answer cfg w cursor st).2 =
    Raise (Exn YandeksError connection_error_text
             (Some (Exn APIStatusCodeError
                      ("Неверный ответ сервера: http code = " +:+ pretty (status_code r) +:+
                       "; reason = " +:+ reason r +:+ "; content = " +:+ text r)
                      None))) ∧
  ∀ w' e, requests_get_result w' = inl e → is_Exception e = true →
    (get_api_answer cfg w' cursor st).2 =
      Raise (Exn YandeksError connection_error_text (Some e)).
Proof.
  intros Hres Hcode. rewrite get_api_answer_eq. simpl. split.
  - unfold api_outcome. rewrite Hres. rewrite bool_decide_true by done. done.
  - intros w' e Hres' Hexc. rewrite get_api_answer_eq. simpl.
    unfold api_outcome. by rewrite Hres', Hexc.
Qed.

Lemma C4_non_200_raises_YandeksError_witness :
  (get_api_answer sample_config world_500 (VInt 800) store_0).2 = Raise error_500 ∧
  exn_cls error_500 =
    match (get_api_answer sample_config world_unreachable (VInt 800) store_0).2 with
    | Raise e => exn_cls e
    | Ok _ => APIStatusCodeError
    end.
Proof.
  destruct (C4_non_200_raises_YandeksError sample_config world_500 (VInt 800) store_0
              (HttpResponse 500 "Internal Server Error" "oops" (inr VNone)))
    as [H500 Hconn]; [reflexivity | discriminate |].
  split; [exact H500|].
  by rewrite (Hconn world_unreachable _ eq_refl eq_refl).
Defined.

(** C4, as the specification states it, fails on an HTTP 500 answer:
    the error that reaches the caller of [get_api_answer] is a
    [YandeksError], the kind of a failed connection, and not an
    [APIStatusCodeError]. *)
Lemma C4_http_500_is_YandeksError :
  (get_api_answer sample_config world_500 (VInt 800) store_0).2 = Raise error_500 ∧
  exn_cls error_500 = YandeksError ∧
  ¬ (∀ cfg w cursor st r,
       requests_get_result w = inr r → status_code r ≠ 200 →
       ∃ e, (get_api_answer cfg w cursor st).2 = Raise e ∧
            exn_cls e = APIStatusCodeError).
Proof.
  split_and!; [reflexivity | reflexivity |].
  intros Hclaim.
  destruct (Hclaim sample_config world_500 (VInt 800) store_0
              (HttpResponse 500 "Internal Server Error" "oops" (inr VNone)))
    as (e & Hraise & Hcls); [reflexivity | discriminate |].
  injection Hraise as <-. discriminate Hcls.
Qed.

(** *** The [from_date] of the request *)

Lemma from_dates_get_api_answer cfg w cursor st :
  from_dates (trace (get_api_answer cfg w cursor st).1) =
  from_dates (trace st) ++ [py_or cursor (VInt (clock w))].
Proof.
  rewrite get_api_answer_eq. simpl. unfold from_dates.
  by rewrite flat_map_app.
Qed.

(** C10.  [get_api_answer] makes one request, whose [from_date] is the
    cursor when the cursor is truthy and the clock otherwise: the
    cursor when it is an integer other than 0, [int(time.time())] when
    it is [None] or 0. *)
Theorem C10_from_date_is_cursor_or_clock cfg w cursor st :
  from_dates (trace (get_api_answer cfg w cursor st).1) =
    from_dates (trace st) ++ [if py_truthy cursor then cursor else VInt (clock w)] ∧
  (∀ n, cursor = VInt n → n ≠ 0 →
     from_dates (trace (get_api_answer cfg w cursor st).1) =
       from_dates (trace st) ++ [VInt n]) ∧
  (cursor = VNone ∨ cursor = VInt 0 →
     from_dates (trace (get_api_answer cfg w cursor st).1) =
       from_dates (trace st) ++ [VInt (clock w)]).
Proof.
  rewrite from_dates_get_api_answer. unfold py_or. split_and!.
  - done.
  - intros n -> Hn. simpl. by rewrite (proj2 (Z.eqb_neq n 0) Hn).
  - by intros [-> | ->].
Qed.

Lemma C10_from_date_is_cursor_or_clock_witness :
  from_dates (trace (get_api_answer sample_config world_500 (VInt 800) store_0).1)
    = [VInt 800] ∧
  from_dates (trace (get_api_answer sample_config world_500 (VInt 0) store_0).1)
    = [VInt 900] ∧
  from_dates (trace (get_api_answer sample_config world_500 VNone store_0).1)
    = [VInt 900].
Proof.
  destruct (C10_from_date_is_cursor_or_clock sample_config world_500 (VInt 800) store_0)
    as (_ & Hnz & _).
  destruct (C10_from_date_is_cursor_or_clock sample_config world_500 (VInt 0) store_0)
    as (_ & _ & Hzero).
  destruct (C10_from_date_is_cursor_or_clock sample_config world_500 VNone store_0)
    as (_ & _ & Hnone).
  split_and!.
  - apply (Hnz 800); [reflexivity | lia].
  - apply Hzero. by right.
  - apply Hnone. by left.
Defined.

(** *** The check of the tokens at startup *)

(** A value of [os.getenv] is falsy when the variable is unset or empty. *)
Lemma py_of_env_falsy o :
  py_truthy (py_of_env o) = false ↔ o = None ∨ o = Some "".
Proof.
  destruct o as [s|]; simpl.
  - case_bool_decide as Hs; simpl.
    + subst s. split; [by right | done].
    + split; [done | intros [|[= ->]]; done].
  - split; [by left | done].
Qed.

Lemma check_tokens_false cfg :
  check_tokens cfg = false ↔
  py_truthy (py_of_env (PRACTICUM_TOKEN cfg)) = false ∨
  py_truthy (py_of_env (TELEGRAM_TOKEN cfg)) = false ∨
  py_truthy (py_of_env (TELEGRAM_CHAT_ID cfg)) = false.
Proof.
  unfold check_tokens. simpl.
  destruct (py_truthy (py_of_env (PRACTICUM_TOKEN cfg))),
    (py_truthy (py_of_env (TELEGRAM_TOKEN cfg))),
    (py_truthy (py_of_env (TELEGRAM_CHAT_ID cfg))); simpl; intuition congruence.
Qed.

(** The first statement of [main] when the check fails. *)
Lemma main_step_tokens_missing env s :
  main_at s = AtCheckTokens →
  check_tokens (cfg env) = false →
  main_step env s =
  System (state s) (Exited startup_error_message) (repl_at s)
    (record (Logged CRITICAL startup_error_message []) (vars s)) (pass s) (stdin s).
Proof. intros Hat Hcheck. unfold main_step. by rewrite Hat, Hcheck. Qed.

(** C9.  A variable that is set to the empty string counts as an absent
    one: when any of [PRACTICUM_TOKEN], [TELEGA_TOKEN], [MY_ID] is
    unset or empty, [check_tokens] returns [False] and [main] leaves
    through [sys.exit] at its first statement, [state] still
    [State.INITIAL]. *)
Theorem C9_empty_token_is_absent environ k :
  k ∈ token_names →
  environ !! k = None ∨ environ !! k = Some "" →
  check_tokens (load_config environ) = false ∧
  ∀ env input, cfg env = load_config environ →
    main_at (main_step env (boot input)) = Exited startup_error_message ∧
    exit_status (main_at (main_step env (boot input))) = Some 1 ∧
    state (main_step env (boot input)) = INITIAL.
Proof.
  intros Hk Hunset.
  assert (Hcheck : check_tokens (load_config environ) = false).
  { apply check_tokens_false. unfold load_config, os_getenv. simpl.
    apply py_of_env_falsy in Hunset.
    unfold token_names in Hk.
    rewrite !elem_of_cons in Hk.
    destruct Hk as [-> | [-> | [-> | Hk]]]; [by left | by right; left | by right; right |].
    by apply elem_of_nil in Hk. }
  split; [done|].
  intros env input Hcfg.
  rewrite main_step_tokens_missing; [done | done | by rewrite Hcfg].
Qed.

Lemma C9_empty_token_is_absent_witness :
  check_tokens (load_config environ_empty_chat_id) = false ∧
  main_at (main_step (Setting (load_config environ_empty_chat_id) 800 None (λ _, world_500))
             (boot []))
    = Exited startup_error_message.
Proof.
  destruct (C9_empty_token_is_absent environ_empty_chat_id "MY_ID")
    as [Hcheck Hmain].
  - unfold token_names. rewrite !elem_of_cons. right; right; left. reflexivity.
  - right. reflexivity.
  - split; [exact Hcheck|].
    destruct (Hmain (Setting (load_config environ_empty_chat_id) 800 None (λ _, world_500))
                [] eq_refl) as (Hexit & _).
    exact Hexit.
Defined.

(** *** Startup without the tokens *)






(** *** The stop request and the startup of [main] *)

Lemma started_step env t s :
  started (main_at s) = true → started (main_at (step env t s)) = true.
Proof.
  intros Hstarted. destruct t; simpl.
  - unfold main_step.
    destruct (main_at s) eqn:Hat; simpl; try done.
    + by case_bool_decide.
    + by destruct (poll_cycle _ _ _) as [st [[]|e]].
    + by rewrite Hat.
    + by rewrite Hat.
    + by rewrite Hat.
  - by destruct (repl_step_main s) as [-> _].
Qed.

(** The one statement that takes [state] away from [State.STOPPED] is
    the [state = State.RUNNING] of [main]. *)
Lemma stopped_step env t s :
  state s = STOPPED →
  state (step env t s) = STOPPED ∨
  t = MainThread ∧ main_at s = AtSetRunning ∧ state (step env t s) = RUNNING.
Proof.
  intros Hstopped. destruct t; simpl.
  - unfold main_step.
    destruct (main_at s) eqn:Hat; simpl; try by left.
    + destruct (negb _); by left.
    + right. by destruct (bot_init env).
    + case_bool_decide; by left.
    + destruct (poll_cycle _ _ _) as [st [[]|e]]; by left.
  - left. unfold repl_step.
    destruct (repl_at s); simpl; try done.
    destruct (stdin s) as [|[command|] rest]; simpl; try done.
    by case_bool_decide.
Qed.

Lemma stopped_run env schedule s :
  started (main_at s) = true →
  state s = STOPPED →
  state (run env schedule s) = STOPPED ∧
  started (main_at (run env schedule s)) = true.
Proof.
  revert s. induction schedule as [|t schedule IH]; intros s Hstarted Hstopped; simpl.
  - done.
  - apply IH; [by apply started_step|].
    destruct (stopped_step env t s Hstopped) as [H | (_ & Hat & _)]; [done|].
    by rewrite Hat in Hstarted.
Qed.

(** C3, as amended.  Once a stop request has set [state] to
    [State.STOPPED], the only statement that takes it away from
    [State.STOPPED] is the [state = State.RUNNING] with which [main]
    starts up, and it does so; when the stop request comes after that
    statement, [state] stays [State.STOPPED] whatever runs next. *)
Theorem C3_stopped_is_final_after_startup env s :
  state s = STOPPED →
  (∀ t, state (step env t s) = STOPPED ∨
        t = MainThread ∧ main_at s = AtSetRunning ∧ state (step env t s) = RUNNING) ∧
  (main_at s = AtSetRunning → state (main_step env s) = RUNNING) ∧
  (started (main_at s) = true →
     ∀ schedule, state (run env schedule s) = STOPPED).
Proof.
  intros Hstopped. split_and!.
  - intros t. by apply stopped_step.
  - intros Hat. unfold main_step. rewrite Hat. by destruct (bot_init env).
  - intros Hstarted schedule. by apply stopped_run.
Qed.

Lemma C3_stopped_is_final_after_startup_witness :
  state (run env_stop_first [ReplThread; ReplThread; MainThread; MainThread]
           (System STOPPED AtLoopTop ReplReturned store_0 0 [])) = STOPPED.
Proof.
  destruct (C3_stopped_is_final_after_startup env_stop_first
              (System STOPPED AtLoopTop ReplReturned store_0 0 []))
    as (_ & _ & Hfinal); [reflexivity|].
  apply Hfinal. reflexivity.
Defined.

(** C3, as the specification states it, fails when the operator types
    [s] before [main] reaches its [state = State.RUNNING]: [repl] sets
    [state] to [State.STOPPED] and returns, then [main] passes
    [check_tokens] and sets [state] to [State.RUNNING]. *)
Lemma C3_stop_before_startup_is_overwritten :
  state (run env_stop_first stop_first (boot [Some "s"])) = STOPPED ∧
  state (run env_stop_first [MainThread; MainThread]
           (run env_stop_first stop_first (boot [Some "s"]))) = RUNNING ∧
  ¬ (∀ env input schedule schedule',
       state (run env schedule (boot input)) = STOPPED →
       state (run env schedule' (run env schedule (boot input))) = STOPPED).
Proof.
  split_and!; [reflexivity | reflexivity |].
  intros Hclaim.
  specialize (Hclaim env_stop_first [Some "s"] stop_first [MainThread; MainThread] eq_refl).
  discriminate Hclaim.
Qed.

(** *** The stop request and the loop-top check *)

(** The stop request itself: the line [s] makes [repl] set [state] and
    return, and leaves [main] where it is. *)
Lemma repl_step_stop s rest :
  repl_at s = Waiting → stdin s = Some "s" :: rest →
  repl_step s = System STOPPED (main_at s) ReplReturned (vars s) (pass s) rest.
Proof. intros Hat Hin. unfold repl_step. by rewrite Hat, Hin. Qed.

(** The loop-top check with [state] stopped: the [break]. *)
Lemma main_step_loop_top_stopped env s :
  main_at s = AtLoopTop → state s = STOPPED →
  main_step env s = System STOPPED Returned (repl_at s) (vars s) (pass s) (stdin s).
Proof. intros Hat Hstopped. unfold main_step. by rewrite Hat, Hstopped. Qed.

Lemma winding_down_run env schedule s :
  state s = STOPPED →
  between_passes (main_at s) = true →
  state (run env schedule s) = STOPPED ∧
  between_passes (main_at (run env schedule s)) = true ∧
  network_calls (trace (vars (run env schedule s))) = network_calls (trace (vars s)) ∧
  ((turns_to_return (main_at s) ≤ main_turns schedule)%nat →
   main_at (run env schedule s) = Returned).
Proof.
  revert s. induction schedule as [|t schedule IH]; intros s Hstopped Hbetween.
  - simpl. split_and!; try done.
    unfold main_turns. simpl. destruct (main_at s); simpl in *; try done; intros; lia.
  - destruct t; simpl.
    + destruct (main_at s) eqn:Hat; try done.
      * (* the loop-top check *)
        rewrite main_step_loop_top_stopped by done.
        destruct (IH (System STOPPED Returned (repl_at s) (vars s) (pass s) (stdin s)))
          as (H1 & H2 & H3 & H4); [done | done |].
        split_and!; try done.
        intros _. apply H4. simpl. lia.
      * (* [time.sleep(RETRY_TIME)] *)
        assert (Hstep : main_step env s =
          System (state s) AtLoopTop (repl_at s) (record (Slept RETRY_TIME) (vars s))
            (S (pass s)) (stdin s)) by (unfold main_step; by rewrite Hat).
        rewrite Hstep.
        destruct (IH (System (state s) AtLoopTop (repl_at s)
                        (record (Slept RETRY_TIME) (vars s)) (S (pass s)) (stdin s)))
          as (H1 & H2 & H3 & H4); [done | done |].
        split_and!; try done.
        -- rewrite H3. simpl. unfold network_calls.
           by rewrite List.filter_app, app_nil_r.
        -- unfold main_turns in *. simpl in *. intros Hturns. apply H4. lia.
      * (* [main] has returned *)
        rewrite main_step_Returned by done.
        destruct (IH s) as (H1 & H2 & H3 & H4); [done | by rewrite Hat |].
        split_and!; try done.
        intros _. rewrite Hat in H4. apply H4. simpl. lia.
    + destruct (repl_step_main s) as (Hm & _ & _ & Hn).
      destruct (IH (repl_step s)) as (H1 & H2 & H3 & H4).
      * destruct (stopped_step env ReplThread s Hstopped) as [H | (H & _)]; done.
      * by rewrite Hm.
      * split_and!; try done; [congruence|].
        rewrite Hm in H4. unfold main_turns in *. simpl. done.
Qed.

(** C7, as amended.  When a stop is requested after [main] has set
    [state] to [State.RUNNING], [state] is still [State.STOPPED] at
    every later loop-top check.  A loop-top check that finds
    [State.STOPPED] makes [main] return, with exit status 0, without
    touching its locals or making a call.  When the request comes while
    [main] sleeps or stands at the loop-top check, no further network
    call is ever made, and [main] has returned after at most two of its
    statements: the end of the sleep and the check. *)
Theorem C7_stop_seen_at_next_loop_top env s :
  started (main_at s) = true →
  state s = STOPPED →
  (∀ schedule, state (run env schedule s) = STOPPED) ∧
  (main_at s = AtLoopTop →
     main_at (main_step env s) = Returned ∧
     exit_status (main_at (main_step env s)) = Some 0 ∧
     vars (main_step env s) = vars s) ∧
  (main_at s = AtLoopTop ∨ main_at s = AtSleep →
     ∀ schedule,
       network_calls (trace (vars (run env schedule s))) =
         network_calls (trace (vars s)) ∧
       ((2 ≤ main_turns schedule)%nat → main_at (run env schedule s) = Returned)).
Proof.
  intros Hstarted Hstopped. split_and!.
  - intros schedule. by apply stopped_run.
  - intros Hat. by rewrite main_step_loop_top_stopped.
  - intros Hat schedule.
    destruct (winding_down_run env schedule s) as (_ & _ & Hnet & Hret); [done| |].
    + by destruct Hat as [-> | ->].
    + split; [done|]. intros Hturns. apply Hret.
      destruct Hat as [-> | ->]; simpl; lia.
Qed.

Lemma C7_stop_seen_at_next_loop_top_witness :
  state (repl_step asleep) = STOPPED ∧
  main_at (run env_stop_first [MainThread; MainThread] (repl_step asleep)) = Returned ∧
  network_calls
    (trace (vars (run env_stop_first [MainThread; MainThread] (repl_step asleep)))) = [].
Proof.
  destruct (C7_stop_seen_at_next_loop_top env_stop_first (repl_step asleep))
    as (_ & _ & Hquiet); [reflexivity | reflexivity |].
  destruct (Hquiet (or_intror eq_refl) [MainThread; MainThread]) as [Hnet Hret].
  split_and!; [reflexivity | | exact Hnet].
  apply Hret. unfold main_turns. simpl. lia.
Defined.

(** C7, as the specification states it, fails when the operator types
    [s] before [main] reaches its [state = State.RUNNING]: the stop
    request is overwritten, the loop-top check that follows finds
    [State.RUNNING] and goes on to the [try] block, and the request to
    the API is made. *)
Lemma C7_stop_before_startup_is_not_seen :
  state (run env_stop_first stop_first (boot [Some "s"])) = STOPPED ∧
  main_at (run env_stop_first [MainThread; MainThread]
             (run env_stop_first stop_first (boot [Some "s"]))) = AtLoopTop ∧
  main_at (run env_stop_first [MainThread; MainThread; MainThread]
             (run env_stop_first stop_first (boot [Some "s"]))) = AtTry ∧
  network_calls
    (trace (vars (run env_stop_first [MainThread; MainThread; MainThread; MainThread]
                    (run env_stop_first stop_first (boot [Some "s"])))))
    = [HttpGet ENDPOINT (HEADERS sample_config) [("from_date", VInt 800)]] ∧
  ¬ (∀ env input schedule schedule',
       state (run env schedule (boot input)) = STOPPED →
       main_at (run env schedule' (run env schedule (boot input))) = AtLoopTop →
       main_at (main_step env (run env schedule' (run env schedule (boot input))))
         = Returned).
Proof.
  split_and!; [reflexivity | reflexivity | reflexivity | reflexivity |].
  intros Hclaim.
  specialize (Hclaim env_stop_first [Some "s"] stop_first [MainThread; MainThread]
                eq_refl eq_refl).
  discriminate Hclaim.
Qed.

(** ** Further properties of the functions *)

(** *** [check_response] *)

(** X1.  A payload that is a mapping in which [homeworks] or
    [current_date] is missing or [null] is refused with the [KeyError]
    of the missing keys, before the type of [homeworks] is looked at,
    and nothing is logged. *)
Theorem X1_check_response_missing_key d st :
  dict_get d "homeworks" = VNone ∨ dict_get d "current_date" = VNone →
  check_response (VDict d) st = (st, Raise missing_keys_error).
Proof.
  intros Hmissing. unfold check_response.
  replace (is_None (dict_get d "homeworks") || is_None (dict_get d "current_date"))
    with true; [done|].
  destruct Hmissing as [-> | ->]; simpl; [done|].
  by rewrite orb_true_r.
Qed.

Lemma X1_check_response_missing_key_witness :
  check_response payload_no_date store_0 = (store_0, Raise missing_keys_error).
Proof.
  apply (X1_check_response_missing_key [("homeworks", VInt 7)] store_0).
  right. reflexivity.
Defined.

(** X2.  [check_response] returns exactly when the payload is a mapping
    whose [homeworks] is a list and whose [current_date] is not [null];
    it then returns that list as it is, and writes one [debug] line
    when the list is empty and nothing otherwise. *)
Theorem X2_check_response_returns_homeworks response st st' v :
  check_response response st = (st', Ok v) ↔
  ∃ d l, response = VDict d ∧
         dict_get d "homeworks" = VList l ∧
         dict_get d "current_date" ≠ VNone ∧
         v = VList l ∧
         st' = match l with
               | [] => record (Logged DEBUG "Статус проверки не изменился" []) st
               | _ => st
               end.
Proof.
  split.
  - unfold check_response.
    destruct response as [| | | |items|d]; try discriminate.
    destruct (dict_get d "homeworks") as [| | | |l|d'] eqn:Hhw; simpl;
      try discriminate; try (destruct (is_None _); discriminate).
    destruct (dict_get d "current_date") eqn:Hdate; simpl; try discriminate;
      (destruct l as [|x l]; simpl; intros [= <- <-];
       exists d; eexists; split_and!; try done; by rewrite Hdate).
  - intros (d & l & -> & Hhw & Hdate & -> & ->).
    unfold check_response. rewrite Hhw. simpl.
    destruct (dict_get d "current_date"); try done; by destruct l.
Qed.

(** X3.  A payload that is not a mapping is refused with the
    [TypeError] of the missing dictionary; a mapping that has both keys
    but whose [homeworks] is not a list is refused with the [TypeError]
    of the missing list.  Neither writes a line. *)
Theorem X3_check_response_type_errors st :
  (∀ response, (∀ d, response ≠ VDict d) →
     check_response response st = (st, Raise not_a_dict_error)) ∧
  (∀ d, dict_get d "homeworks" ≠ VNone → dict_get d "current_date" ≠ VNone →
        (∀ l, dict_get d "homeworks" ≠ VList l) →
     check_response (VDict d) st = (st, Raise not_a_list_error)).
Proof.
  split.
  - intros response Hnot. destruct response; try done. by destruct (Hnot items).
  - intros d Hhw Hdate Hlist. unfold check_response.
    destruct (dict_get d "homeworks") as [| | | |l|d'] eqn:Hhw'; try done;
      try (destruct (dict_get d "current_date"); done).
    by destruct (Hlist l).
Qed.

Lemma X3_check_response_type_errors_witness :
  check_response (VList []) store_0 = (store_0, Raise not_a_dict_error) ∧
  check_response payload_homeworks_int store_0 = (store_0, Raise not_a_list_error).
Proof.
  destruct (X3_check_response_type_errors store_0) as [Hdict Hlist].
  split.
  - apply Hdict. discriminate.
  - apply (Hlist [("homeworks", VInt 7); ("current_date", VInt 1000)]);
      simpl; discriminate.
Defined.

(** *** [parse_status] *)

(** The table has the three codes and nothing else. *)
Lemma HOMEWORK_STATUSES_unknown code :
  code ∉ status_codes → HOMEWORK_STATUSES !! code = None.
Proof.
  unfold status_codes, HOMEWORK_STATUSES. intros Hcode.
  rewrite !not_elem_of_cons in Hcode. destruct Hcode as (H1 & H2 & H3 & _).
  rewrite !lookup_insert_ne by done. by rewrite lookup_singleton_ne.
Qed.

Lemma HOMEWORK_STATUSES_known code verdict :
  HOMEWORK_STATUSES !! code = Some verdict → code ∈ status_codes.
Proof.
  intros Hlookup. destruct (decide (code ∈ status_codes)) as [|Hnot]; [done|].
  by rewrite (HOMEWORK_STATUSES_unknown _ Hnot) in Hlookup.
Qed.

(** X4.  A record without [homework_name] is refused with the
    [KeyError] of the name, whatever its [status]; a record with a name
    and without [status] is refused with the [KeyError] of the status.
    A [null] value counts as a missing key.  Nothing is logged. *)
Theorem X4_parse_status_missing_key d st :
  (dict_get d "homework_name" = VNone →
     parse_status (VDict d) st = (st, Raise missing_name_error)) ∧
  (dict_get d "homework_name" ≠ VNone → dict_get d "status" = VNone →
     parse_status (VDict d) st = (st, Raise missing_status_error)).
Proof.
  unfold parse_status, py_get, mbind, M_bind, mret, M_ret. simpl. split.
  - by intros ->.
  - intros Hname ->. by destruct (dict_get d "homework_name").
Qed.

Lemma X4_parse_status_missing_key_witness :
  parse_status hw1_no_name store_0 = (store_0, Raise missing_name_error) ∧
  parse_status (VDict [("homework_name", VStr "hw1")]) store_0
    = (store_0, Raise missing_status_error).
Proof.
  split.
  - apply (X4_parse_status_missing_key [("status", VInt 3)] store_0). reflexivity.
  - apply (X4_parse_status_missing_key [("homework_name", VStr "hw1")] store_0);
      [discriminate | reflexivity].
Defined.

(** X5.  A record whose [status] is a string other than [approved],
    [reviewing] and [rejected] is refused with the [APIResponseError]
    of the unknown status; no message is built or logged. *)
Theorem X5_parse_status_unknown_code d code st :
  dict_get d "homework_name" ≠ VNone →
  dict_get d "status" = VStr code →
  code ∉ status_codes →
  parse_status (VDict d) st = (st, Raise unknown_status_error).
Proof.
  intros Hname Hstatus Hcode.
  unfold parse_status, py_get, mbind, M_bind, mret, M_ret. simpl.
  rewrite Hstatus. simpl. rewrite (HOMEWORK_STATUSES_unknown _ Hcode).
  by destruct (dict_get d "homework_name").
Qed.

Lemma X5_parse_status_unknown_code_witness :
  parse_status hw1_unknown store_0 = (store_0, Raise unknown_status_error).
Proof.
  apply (X5_parse_status_unknown_code
           [("homework_name", VStr "hw1"); ("status", VStr "unknown")] "unknown" store_0).
  - discriminate.
  - reflexivity.
  - unfold status_codes. rewrite !not_elem_of_cons.
    split_and!; try discriminate. apply not_elem_of_nil.
Defined.

(** X6.  A record whose [status] is not a string never yields a
    message: a number or a boolean is an unknown status, and a list or
    a mapping, which cannot be looked up in [HOMEWORK_STATUSES], raises
    the [TypeError] of an unhashable value. *)
Theorem X6_parse_status_status_not_a_string d st :
  dict_get d "homework_name" ≠ VNone →
  (∀ code, dict_get d "status" ≠ VStr code) →
  dict_get d "status" ≠ VNone →
  parse_status (VDict d) st =
  (st, Raise match dict_get d "status" with
             | VList _ => Exn TypeError "unhashable type: 'list'" None
             | VDict _ => Exn TypeError "unhashable type: 'dict'" None
             | _ => unknown_status_error
             end).
Proof.
  intros Hname Hstr Hnone.
  unfold parse_status, py_get, mbind, M_bind, mret, M_ret. simpl.
  destruct (dict_get d "homework_name"); try done;
    destruct (dict_get d "status") as [| | |code| |]; try done;
    by destruct (Hstr code).
Qed.

Lemma X6_parse_status_status_not_a_string_witness :
  parse_status (VDict [("homework_name", VStr "hw1"); ("status", VInt 3)]) store_0
    = (store_0, Raise unknown_status_error) ∧
  parse_status (VDict [("homework_name", VStr "hw1"); ("status", VList [])]) store_0
    = (store_0, Raise (Exn TypeError "unhashable type: 'list'" None)).
Proof.
  split.
  - apply (X6_parse_status_status_not_a_string
             [("homework_name", VStr "hw1"); ("status", VInt 3)] store_0);
      simpl; discriminate || (intros code; discriminate).
  - apply (X6_parse_status_status_not_a_string
             [("homework_name", VStr "hw1"); ("status", VList [])] store_0);
      simpl; discriminate || (intros code; discriminate).
Defined.

(** X7.  [parse_status] returns exactly on a mapping that has a name
    and whose [status] is one of the three codes; the message is then
    the fixed sentence around [str] of the name, followed by the
    verdict of the code, and it is logged once at [debug] level. *)
Theorem X7_parse_status_returns_message homework st st' message :
  parse_status homework st = (st', Ok message) ↔
  ∃ d code verdict,
    homework = VDict d ∧
    dict_get d "homework_name" ≠ VNone ∧
    dict_get d "status" = VStr code ∧
    code ∈ status_codes ∧
    HOMEWORK_STATUSES !! code = Some verdict ∧
    message = status_message (dict_get d "homework_name") verdict ∧
    st' = record (Logged DEBUG message []) st.
Proof.
  split.
  - unfold parse_status, py_get, mbind, M_bind, mret, M_ret, raise.
    destruct homework as [| | | |items|d]; try discriminate.
    destruct (dict_get d "homework_name") eqn:Hname; simpl; try discriminate;
      (destruct (dict_get d "status") as [| | |code| |] eqn:Hstatus; simpl;
       try discriminate;
       destruct (HOMEWORK_STATUSES !! code) as [verdict|] eqn:Hverdict; simpl;
       try discriminate;
       intros [= <- <-]; exists d, code, verdict; rewrite Hname;
       split_and!; try done; by eapply HOMEWORK_STATUSES_known).
  - intros (d & code & verdict & -> & Hname & Hstatus & _ & Hverdict & -> & ->).
    unfold parse_status, py_get, mbind, M_bind, mret, M_ret. simpl.
    rewrite Hstatus. simpl. rewrite Hverdict.
    by destruct (dict_get d "homework_name").
Qed.

(** *** [send_message] and [get_api_answer] *)

(** X8.  [send_message] calls [bot.send_message] exactly once, with the
    chat id of the configuration and the message, whatever the outcome,
    and leaves the locals of [main] alone.  It returns exactly when the
    call returns; an [Exception] of the call comes out as a
    [TelegramError] whose text ends with [str] of that exception and
    whose cause it is, anything else comes out as it is. *)
Theorem X8_send_message_calls_once cfg w message st :
  bot_sends (trace (send_message cfg w message st).1) =
    bot_sends (trace st) ++ [BotSend (py_of_env (TELEGRAM_CHAT_ID cfg)) message] ∧
  same_locals st (send_message cfg w message st).1 ∧
  ((send_message cfg w message st).2 = Ok () ↔ bot_send_result w = None) ∧
  (∀ e, (send_message cfg w message st).2 = Raise e →
     ∃ error, bot_send_result w = Some error ∧
              e = if is_Exception error then telegram_error error else error).
Proof.
  rewrite send_message_eq. simpl.
  destruct (bot_send_result w) as [error|]; sends_simpl; split_and!; try done.
  - intros e [= <-]. by exists error.
Qed.

(** X9.  [get_api_answer] returns exactly when the request is answered
    with status 200 and a body that [response.json()] decodes, and it
    returns the decoded body. *)
Theorem X9_get_api_answer_returns_body cfg w cursor st v :
  (get_api_answer cfg w cursor st).2 = Ok v ↔
  ∃ r, requests_get_result w = inr r ∧ status_code r = 200 ∧ json r = inr v.
Proof.
  rewrite get_api_answer_eq. simpl. unfold api_outcome. split.
  - destruct (requests_get_result w) as [e|r]; [by destruct (is_Exception e)|].
    case_bool_decide as Hcode; [done|].
    destruct (json r) as [e|v'] eqn:Hjson; [by destruct (is_Exception e)|].
    intros [= <-]. exists r. split_and!; try done.
  - intros (r & -> & Hcode & ->). by rewrite bool_decide_false by (by intros ?).
Qed.

(** X10.  [get_api_answer] makes exactly one request per call, with
    the [Authorization] header of the configuration, and does not try
    again; it leaves the locals of [main] alone.  An exception raised
    by [requests.get] or by the decoding of the body of a 200 answer
    comes out as a [YandeksError] with the text of a connection error
    and that very exception as its cause when it is an [Exception], and
    as it is when it is not; an answer with another status comes out as
    a [YandeksError] whose cause is the [APIStatusCodeError] of that
    answer. *)
Theorem X10_get_api_answer_one_request cfg w cursor st :
  network_calls (trace (get_api_answer cfg w cursor st).1) =
    network_calls (trace st) ++
    [HttpGet ENDPOINT (HEADERS cfg) [("from_date", py_or cursor (VInt (clock w)))]] ∧
  same_locals st (get_api_answer cfg w cursor st).1 ∧
  (∀ error, requests_get_result w = inl error →
     (get_api_answer cfg w cursor st).2 =
       Raise (if is_Exception error
              then Exn YandeksError connection_error_text (Some error)
              else error)) ∧
  (∀ r error, requests_get_result w = inr r → status_code r = 200 →
              json r = inl error →
     (get_api_answer cfg w cursor st).2 =
       Raise (if is_Exception error
              then Exn YandeksError connection_error_text (Some error)
              else error)) ∧
  (∀ r, requests_get_result w = inr r → status_code r ≠ 200 →
     (get_api_answer cfg w cursor st).2 =
       Raise (Exn YandeksError connection_error_text
                (Some (Exn APIStatusCodeError (status_code_text r) None)))).
Proof.
  rewrite get_api_answer_eq. simpl. unfold api_outcome. split_and!.
  - unfold network_calls, request_events. rewrite List.filter_app. done.
  - done.
  - intros error ->. by destruct (is_Exception error).
  - intros r error -> Hcode ->. rewrite bool_decide_false by (by intros ?).
    by destruct (is_Exception error).
  - intros r -> Hcode. by rewrite bool_decide_true.
Qed.

Lemma X10_get_api_answer_one_request_witness :
  (get_api_answer sample_config world_bad_json (VInt 800) store_0).2 =
    Raise (Exn YandeksError connection_error_text
             (Some (Exn (ExternalError "JSONDecodeError") "Expecting value" None))) ∧
  (get_api_answer sample_config (World 900 (inl keyboard_interrupt) None)
     (VInt 800) store_0).2 = Raise keyboard_interrupt ∧
  (get_api_answer sample_config world_500 (VInt 800) store_0).2 = Raise error_500.
Proof.
  split_and!.
  - destruct (X10_get_api_answer_one_request sample_config world_bad_json (VInt 800)
                store_0) as (_ & _ & _ & Hjson & _).
    exact (Hjson (HttpResponse 200 "OK" "<html>"
                    (inl (Exn (ExternalError "JSONDecodeError") "Expecting value" None)))
             (Exn (ExternalError "JSONDecodeError") "Expecting value" None)
             eq_refl eq_refl eq_refl).
  - destruct (X10_get_api_answer_one_request sample_config
                (World 900 (inl keyboard_interrupt) None) (VInt 800) store_0)
      as (_ & _ & Hget & _).
    exact (Hget keyboard_interrupt eq_refl).
  - destruct (X10_get_api_answer_one_request sample_config world_500 (VInt 800) store_0)
      as (_ & _ & _ & _ & Hcode).
    apply (Hcode (HttpResponse 500 "Internal Server Error" "oops" (inr VNone)));
      [reflexivity | discriminate].
Defined.

(** *** The notification step *)

(** The guarded rest of the [try] block on a response that is a
    mapping, in closed form. *)
Lemma notify_guarded_dict cfg w d status st :
  notify_guarded cfg w (VDict d) status st =
  if bool_decide (Some status ≠ status_old st)
  then
    let tr := trace st ++
              [sending_line status; BotSend (py_of_env (TELEGRAM_CHAT_ID cfg)) status] in
    match bot_send_result w with
    | None =>
        (Store (dict_get d "current_date") (Some status) (tr ++ [sent_line]), Ok ())
    | Some error =>
        if is_Exception error
        then (Store (current_timestamp st) (status_old st)
                (tr ++ [failure_line (telegram_error error)]), Ok ())
        else (Store (current_timestamp st) (status_old st) tr, Raise error)
    end
  else (Store (dict_get d "current_date") (status_old st) (trace st), Ok ()).
Proof.
  unfold notify_guarded, except_TelegramError, try_except, try_except_else,
    notify_and_advance, gets, mbind, M_bind.
  case_bool_decide as Hchanged.
  - rewrite send_message_eq. simpl.
    destruct (bot_send_result w) as [error|].
    + destruct (is_Exception error) eqn:Hexc; simpl.
      * unfold logging_exception, emit, failure_line, telegram_error. simpl.
        by rewrite <- !List.app_assoc.
      * replace (is_TelegramError error) with false
          by (destruct error as [[] ? ?]; done).
        unfold record. simpl. by rewrite <- !List.app_assoc.
    + unfold set_status_old, py_get, set_current_timestamp, mret, M_ret, record. simpl.
      by rewrite <- !List.app_assoc.
  - by unfold py_get, set_current_timestamp, mret, M_ret.
Qed.

(** X11.  When the message is the last notified one, or when the call
    of [bot.send_message] returns, the step ends normally and the
    cursor becomes whatever the response holds under [current_date],
    [None] included; the next call of [get_api_answer] then asks from
    that value, or from the clock when the value is falsy. *)
Theorem X11_cursor_follows_current_date cfg w d status st :
  Some status = status_old st ∨ bot_send_result w = None →
  (notify_guarded cfg w (VDict d) status st).2 = Ok () ∧
  current_timestamp (notify_guarded cfg w (VDict d) status st).1
    = dict_get d "current_date" ∧
  ∀ w2,
    from_dates
      (trace (get_api_answer cfg w2
                (current_timestamp (notify_guarded cfg w (VDict d) status st).1)
                (notify_guarded cfg w (VDict d) status st).1).1) =
    from_dates (trace (notify_guarded cfg w (VDict d) status st).1) ++
    [py_or (dict_get d "current_date") (VInt (clock w2))].
Proof.
  intros Hcase.
  assert (Hstep : (notify_guarded cfg w (VDict d) status st).2 = Ok () ∧
                  current_timestamp (notify_guarded cfg w (VDict d) status st).1
                    = dict_get d "current_date").
  { rewrite notify_guarded_dict. case_bool_decide as Hchanged; [|done].
    destruct Hcase as [Hsame | ->]; [by destruct Hchanged|done]. }
  destruct Hstep as [Hok Hcursor]. split_and!; [done | done |].
  intros w2. rewrite from_dates_get_api_answer. by rewrite Hcursor.
Qed.

Lemma X11_cursor_follows_current_date_witness :
  current_timestamp
    (notify_guarded sample_config (world_200 payload_A)
       (VDict [("homeworks", VList [hw1_approved])]) message_hw1_approved store_0).1
    = VNone.
Proof.
  destruct (X11_cursor_follows_current_date sample_config (world_200 payload_A)
              [("homeworks", VList [hw1_approved])] message_hw1_approved store_0)
    as (_ & Hcursor & _); [right; reflexivity|].
  exact Hcursor.
Defined.

(** X12.  After a step whose message was delivered or was already the
    last notified one, a second step with the same message calls
    [bot.send_message] no more and writes no line, whatever the
    outside would have answered: one delivery for two equal messages
    in a row. *)
Theorem X12_same_message_is_sent_once cfg w1 w2 d1 d2 status st :
  Some status = status_old st ∨ bot_send_result w1 = None →
  status_old (notify_guarded cfg w1 (VDict d1) status st).1 = Some status ∧
  trace (notify_guarded cfg w2 (VDict d2) status
           (notify_guarded cfg w1 (VDict d1) status st).1).1
    = trace (notify_guarded cfg w1 (VDict d1) status st).1 ∧
  status_old (notify_guarded cfg w2 (VDict d2) status
                (notify_guarded cfg w1 (VDict d1) status st).1).1
    = Some status.
Proof.
  intros Hcase.
  assert (Hold : status_old (notify_guarded cfg w1 (VDict d1) status st).1 = Some status).
  { rewrite notify_guarded_dict. case_bool_decide as Hchanged.
    - destruct Hcase as [Hsame | ->]; [by destruct Hchanged|done].
    - simpl. destruct (decide (Some status = status_old st)) as [<-|Hne]; [done|].
      by destruct Hchanged. }
  split; [done|].
  rewrite (notify_guarded_dict cfg w2 d2 status).
  rewrite Hold. by rewrite bool_decide_false by (by intros ?).
Qed.

Lemma X12_same_message_is_sent_once_witness :
  bot_sends
    (trace (notify_guarded sample_config world_send_fails payload_B message_hw1_approved
              (notify_guarded sample_config (world_200 payload_A) payload_A
                 message_hw1_approved store_0).1).1)
    = [BotSend (VStr "1001") message_hw1_approved].
Proof.
  destruct (X12_same_message_is_sent_once sample_config (world_200 payload_A)
              world_send_fails
              [("homeworks", VList [hw1_approved]); ("current_date", VInt 1000)]
              [("homeworks", VList []); ("current_date", VInt 1000)]
              message_hw1_approved store_0)
    as (_ & Htrace & _); [right; reflexivity|].
  etrans; [exact (f_equal bot_sends Htrace) | reflexivity].
Defined.

(** X13.  When the message is new and [bot.send_message] fails with an
    [Exception], the step writes the line of the attempt, makes the
    call, logs the failure once through [logging.exception] with the
    text of the [TelegramError], and ends normally; when the call is
    interrupted by something that is not an [Exception], that comes out
    of the step and nothing is logged for it. *)
Theorem X13_failed_send_is_logged cfg w d status st error :
  Some status ≠ status_old st →
  bot_send_result w = Some error →
  notify_guarded cfg w (VDict d) status st =
  if is_Exception error
  then (Store (current_timestamp st) (status_old st)
          (trace st ++
           [sending_line status; BotSend (py_of_env (TELEGRAM_CHAT_ID cfg)) status;
            LoggedException
              ("Сбой в работе программы: Ошибка отправки сообщения в телеграм: "
               +:+ exn_str error)
              (telegram_error error)]),
        Ok ())
  else (Store (current_timestamp st) (status_old st)
          (trace st ++
           [sending_line status; BotSend (py_of_env (TELEGRAM_CHAT_ID cfg)) status]),
        Raise error).
Proof.
  intros Hchanged Hres. rewrite notify_guarded_dict.
  rewrite bool_decide_true by done. rewrite Hres. simpl.
  destruct (is_Exception error); [|done].
  by rewrite <- !List.app_assoc.
Qed.

Lemma X13_failed_send_is_logged_witness :
  (notify_guarded sample_config world_send_fails payload_A message_hw1_approved store_0).2
    = Ok () ∧
  (notify_guarded sample_config (World 900 (inl keyboard_interrupt) (Some keyboard_interrupt))
     payload_A message_hw1_approved store_0).2
    = Raise keyboard_interrupt.
Proof.
  split.
  - unfold payload_A.
    rewrite (X13_failed_send_is_logged sample_config world_send_fails _ _ store_0
               (Exn (ExternalError "NetworkError") "timed out" None));
      [reflexivity | discriminate | reflexivity].
  - unfold payload_A.
    rewrite (X13_failed_send_is_logged sample_config
               (World 900 (inl keyboard_interrupt) (Some keyboard_interrupt)) _ _ store_0
               keyboard_interrupt);
      [reflexivity | discriminate | reflexivity].
Defined.

(** ** Further properties of the process *)

(** The [try] statement of the loop always raises; it adds one request
    to the calls made, sends nothing to the chat and logs no failure. *)
Lemma check_response_store response st :
  (check_response response st).1 = st ∨
  (check_response response st).1 =
    record (Logged DEBUG "Статус проверки не изменился" []) st.
Proof.
  unfold check_response.
  destruct response as [| | | |items|d]; try by left.
  destruct (is_None _ || is_None _); [by left|].
  destruct (dict_get d "homeworks") as [| | | |l|d']; try by left.
  destruct l; simpl; [by right | by left].
Qed.

Lemma poll_cycle_raises cfg w st :
  ∃ st' e, poll_cycle cfg w st = (st', Raise e) ∧
           same_locals st st' ∧ unreported st st' ∧
           network_calls (trace st') =
             network_calls (trace st) ++
             [HttpGet ENDPOINT (HEADERS cfg)
                [("from_date", py_or (current_timestamp st) (VInt (clock w)))]].
Proof.
  destruct (fetch_validate_parse_raises cfg w st) as (st' & e & Hfvp & He & Hloc & Hun).
  exists st', e. split_and!; try done; [by apply poll_cycle_propagates|].
  revert Hfvp. unfold fetch_validate_parse, gets, mbind, M_bind.
  rewrite get_api_answer_eq.
  set (st0 := Store _ _ _).
  assert (Hnet0 : network_calls (trace st0) =
            network_calls (trace st) ++
            [HttpGet ENDPOINT (HEADERS cfg)
               [("from_date", py_or (current_timestamp st) (VInt (clock w)))]]).
  { unfold st0, network_calls, request_events. simpl. by rewrite List.filter_app. }
  destruct (api_outcome w) as [response|e0]; [|by intros [= <- <-]].
  pose proof (check_response_store response st0) as Hstore.
  destruct (check_response response st0) as [st1 [v|e1]] eqn:Hcheck; simpl in Hstore.
  - assert (Hnet1 : network_calls (trace st1) = network_calls (trace st0)).
    { destruct Hstore as [-> | ->]; [done|].
      unfold network_calls. simpl. by rewrite List.filter_app, app_nil_r. }
    apply check_response_returns_list in Hcheck as ([l ->] & _).
    rewrite parse_status_list. intros [= <- <-]. congruence.
  - apply check_response_raises in Hcheck as [_ ->]. by intros [= <- <-].
Qed.

(** C6.  On the answer
    [{"homeworks": [{"homework_name": "hw1", "status": "approved"}], "current_date": 1000}]
    with no message notified yet, the message that [parse_status]
    gives for the record differs from the last notified one, and yet
    the pass sends nothing and leaves the last notified message as it
    was: the list goes to [parse_status], which raises before the
    comparison.  So it is in every pass: whatever the outside answers,
    [bot.send_message] is not called and the last notified message is
    not set. *)
Theorem C6_new_message_is_not_sent :
  (parse_status hw1_approved store_0).2 = Ok message_hw1_approved ∧
  Some message_hw1_approved ≠ status_old store_0 ∧
  bot_sends (trace (poll_cycle sample_config (world_200 payload_A) store_0).1) = [] ∧
  status_old (poll_cycle sample_config (world_200 payload_A) store_0).1 = None ∧
  (poll_cycle sample_config (world_200 payload_A) store_0).2 = Raise list_has_no_get ∧
  ∀ cfg w st,
    bot_sends (trace (poll_cycle cfg w st).1) = bot_sends (trace st) ∧
    status_old (poll_cycle cfg w st).1 = status_old st.
Proof.
  split_and!; try done.
  intros cfg w st.
  destruct (poll_cycle_raises cfg w st) as (st' & e & -> & [_ Hold] & [_ Hsends] & _).
  by split.
Qed.

(** X14.  Whatever the configuration, the answers of the outside, the
    console input and the scheduling, the process never calls
    [bot.send_message] and never writes the [logging.exception] line of
    a failed delivery: every pass of the loop ends at [parse_status]
    before the notification. *)
Theorem X14_process_never_notifies env schedule s :
  bot_sends (trace (vars (run env schedule s))) = bot_sends (trace (vars s)) ∧
  exception_logs (trace (vars (run env schedule s))) = exception_logs (trace (vars s)).
Proof.
  revert s. induction schedule as [|t schedule IH]; intros s; simpl; [done|].
  destruct (IH (step env t s)) as [IH1 IH2]. rewrite IH1, IH2. clear IH IH1 IH2.
  assert (Hrecord : ∀ ev st, is_bot_send ev = false → is_exception_log ev = false →
            bot_sends (trace (record ev st)) = bot_sends (trace st) ∧
            exception_logs (trace (record ev st)) = exception_logs (trace st)).
  { intros ev st H1 H2. unfold bot_sends, exception_logs. simpl.
    rewrite !List.filter_app. simpl. rewrite H1, H2. by rewrite !app_nil_r. }
  destruct t; simpl.
  - unfold main_step. destruct (main_at s); simpl; try done.
    + destruct (negb _); simpl; [by apply Hrecord | done].
    + by destruct (bot_init env).
    + by case_bool_decide.
    + destruct (poll_cycle_raises (cfg env) (oracle env (pass s)) (vars s))
        as (st' & e & -> & _ & [Hlogs Hsends] & _).
      by split.
    + by apply Hrecord.
  - unfold repl_step. destruct (repl_at s); simpl; try done.
    + by apply Hrecord.
    + destruct (stdin s) as [|[command|] rest]; simpl; try done.
      by case_bool_decide.
Qed.

Lemma first_pass_step env t s :
  first_pass env s → first_pass env (step env t s).
Proof.
  intros [Hpass Hmain]. destruct t; simpl.
  - unfold first_pass, main_step in *.
    destruct (main_at s) eqn:Hat; simpl; try by rewrite Hat.
    + destruct (negb _); simpl; split; try done.
      unfold network_calls in *. simpl. by rewrite List.filter_app, Hmain.
    + destruct (bot_init env); simpl; split; try done. by left.
    + destruct Hmain as [Hnet Hcursor]. by case_bool_decide.
    + destruct Hmain as [Hnet Hcursor].
      destruct (poll_cycle_raises (cfg env) (oracle env (pass s)) (vars s))
        as (st' & e & -> & _ & _ & Hreq).
      simpl. split; [done|]. right.
      rewrite Hreq, Hnet, Hcursor, Hpass. done.
    + done.
  - destruct (repl_step_main s) as (Hm & Hp & [Hts _] & Hn).
    unfold first_pass. rewrite Hm, Hp, Hn, Hts. by split.
Qed.

(** X15.  A process started by [python homework.py] never completes a
    pass of the loop: whatever the outside answers and however the
    threads are scheduled, [main] never reaches [time.sleep], and the
    calls it has made are no more than one request, which asks from the
    clock read at startup. *)
Theorem X15_at_most_the_first_request env input schedule :
  pass (run env schedule (boot input)) = 0%nat ∧
  main_at (run env schedule (boot input)) ≠ AtSleep ∧
  (network_calls (trace (vars (run env schedule (boot input)))) = [] ∨
   network_calls (trace (vars (run env schedule (boot input)))) = [first_request env]).
Proof.
  assert (Hrun : ∀ s, first_pass env s → first_pass env (run env schedule s)).
  { induction schedule as [|t schedule IH]; intros s Hinv; simpl; [done|].
    apply IH. by apply first_pass_step. }
  destruct (Hrun (boot input)) as [Hpass Hmain]; [by split|].
  split; [done|].
  destruct (main_at (run env schedule (boot input))); try done;
    try (split; [done | by left]).
  split; [done|]. left. by destruct Hmain.
  split; [done|]. left. by destruct Hmain.
Qed.

(** *** The console thread and [state] *)

Lemma never_stopped_step env t s :
  never_stopped s → never_stopped (step env t s).
Proof.
  intros (Hstate & Hmain & Hinput). unfold never_stopped, no_stop_command in *.
  destruct t; simpl.
  - unfold main_step. destruct (main_at s) eqn:Hat; simpl; try by rewrite ?Hat.
    + by destruct (negb _).
    + by destruct (bot_init env).
    + by rewrite bool_decide_false.
    + by destruct (poll_cycle _ _ _) as [st [[]|e]].
  - unfold repl_step. destruct (repl_at s); simpl; try done.
    destruct (stdin s) as [|[command|] rest] eqn:Hin; simpl.
    + by rewrite Hin.
    + apply not_elem_of_cons in Hinput as [Hcommand Hrest].
      rewrite bool_decide_false by congruence. done.
    + by apply not_elem_of_cons in Hinput as [_ Hrest].
Qed.

(** X16.  When no line of the console input is exactly [s], [state] is
    never [State.STOPPED] and [main] never leaves the loop through its
    [break]: the only ways out of [main] are [sys.exit] and an
    exception. *)
Theorem X16_without_s_no_stop env input schedule :
  no_stop_command input →
  state (run env schedule (boot input)) ≠ STOPPED ∧
  main_at (run env schedule (boot input)) ≠ Returned.
Proof.
  intros Hinput.
  assert (Hrun : ∀ s, never_stopped s → never_stopped (run env schedule s)).
  { induction schedule as [|t schedule IH]; intros s Hinv; simpl; [done|].
    apply IH. by apply never_stopped_step. }
  destruct (Hrun (boot input)) as (Hstate & Hmain & _); [by split_and!|].
  by split.
Qed.

Lemma X16_without_s_no_stop_witness :
  state (run env_stop_first [ReplThread; ReplThread; MainThread; ReplThread; ReplThread]
           (boot [Some "stop"; Some "S"; None])) ≠ STOPPED.
Proof.
  destruct (X16_without_s_no_stop env_stop_first [Some "stop"; Some "S"; None]
              [ReplThread; ReplThread; MainThread; ReplThread; ReplThread])
    as [Hstate _].
  - unfold no_stop_command. rewrite !not_elem_of_cons.
    split_and!; try discriminate. apply not_elem_of_nil.
  - exact Hstate.
Defined.

(** X17.  One statement changes [state] in one of two ways only: the
    startup of [main] sets it to [State.RUNNING], and [repl] reading
    the line [s] sets it to [State.STOPPED].  So [state], once it has
    left [State.INITIAL], never is [State.INITIAL] again. *)
Theorem X17_state_transitions env s :
  (∀ t, state (step env t s) = state s ∨
        t = MainThread ∧ main_at s = AtSetRunning ∧ state (step env t s) = RUNNING ∨
        t = ReplThread ∧ repl_at s = Waiting ∧
          (∃ rest, stdin s = Some "s" :: rest) ∧ state (step env t s) = STOPPED) ∧
  (state s ≠ INITIAL → ∀ schedule, state (run env schedule s) ≠ INITIAL).
Proof.
  assert (Hstep : ∀ s0 t, state (step env t s0) = state s0 ∨
        t = MainThread ∧ main_at s0 = AtSetRunning ∧ state (step env t s0) = RUNNING ∨
        t = ReplThread ∧ repl_at s0 = Waiting ∧
          (∃ rest, stdin s0 = Some "s" :: rest) ∧ state (step env t s0) = STOPPED).
  { intros s0 t. destruct t; simpl.
    - unfold main_step. destruct (main_at s0) eqn:Hat; simpl; try by left.
      + destruct (negb _); by left.
      + right; left. by destruct (bot_init env).
      + case_bool_decide; by left.
      + destruct (poll_cycle _ _ _) as [st [[]|e]]; by left.
    - unfold repl_step. destruct (repl_at s0) eqn:Hat; simpl; try by left.
      destruct (stdin s0) as [|[command|] rest] eqn:Hin; simpl; try by left.
      case_bool_decide as Hcommand; [|by left].
      right; right. subst command. split_and!; try done. by exists rest. }
  split; [apply Hstep|].
  intros Hstate schedule. revert s Hstate.
  induction schedule as [|t schedule IH]; intros s Hstate; simpl; [done|].
  apply IH.
  destruct (Hstep s t) as [-> | [(_ & _ & ->) | (_ & _ & _ & ->)]]; done.
Qed.

Lemma X17_state_transitions_witness :
  state (run env_stop_first [MainThread; MainThread; MainThread]
           (run env_stop_first stop_first (boot [Some "s"]))) ≠ INITIAL.
Proof.
  destruct (X17_state_transitions env_stop_first
              (run env_stop_first stop_first (boot [Some "s"]))) as [_ Hnever].
  apply Hnever. discriminate.
Defined.

Lemma repl_ended_step env t s :
  repl_ended (repl_at s) = true → state s ≠ STOPPED →
  repl_ended (repl_at (step env t s)) = true ∧ state (step env t s) ≠ STOPPED.
Proof.
  intros Hended Hstate. destruct t; simpl.
  - unfold main_step. destruct (main_at s) eqn:Hat; simpl; try done.
    + by destruct (negb _).
    + by destruct (bot_init env).
    + by case_bool_decide.
    + by destruct (poll_cycle _ _ _) as [st [[]|e]].
  - unfold repl_step. destruct (repl_at s) eqn:Hat; try done; by rewrite Hat.
Qed.

(** X18.  At the end of the console input [input] raises [EOFError],
    which ends [repl] and leaves [state] and [main] as they are; from
    then on [state] can never become [State.STOPPED], whatever is still
    typed and however long the process runs. *)
Theorem X18_end_of_input_ends_repl env s rest :
  repl_at s = Waiting →
  stdin s = None :: rest →
  state s ≠ STOPPED →
  repl_at (repl_step s) = ReplRaised (Exn EOFError "EOF when reading a line" None) ∧
  state (repl_step s) = state s ∧
  main_at (repl_step s) = main_at s ∧
  vars (repl_step s) = vars s ∧
  ∀ schedule, state (run env schedule (repl_step s)) ≠ STOPPED.
Proof.
  intros Hat Hin Hstate.
  assert (Hstep : repl_step s =
    System (state s) (main_at s) (ReplRaised (Exn EOFError "EOF when reading a line" None))
      (vars s) (pass s) rest) by (unfold repl_step; by rewrite Hat, Hin).
  rewrite Hstep. simpl. split_and!; try done.
  intros schedule.
  assert (Hrun : ∀ s0, repl_ended (repl_at s0) = true → state s0 ≠ STOPPED →
            state (run env schedule s0) ≠ STOPPED).
  { induction schedule as [|t schedule IH]; intros s0 Hended Hstate0; simpl; [done|].
    destruct (repl_ended_step env t s0 Hended Hstate0) as [Hended' Hstate'].
    by apply IH. }
  by apply Hrun.
Qed.

Lemma X18_end_of_input_ends_repl_witness :
  state (run env_stop_first [ReplThread; MainThread; ReplThread]
           (repl_step (System RUNNING AtSleep Waiting store_0 0 [None; Some "s"])))
    ≠ STOPPED.
Proof.
  destruct (X18_end_of_input_ends_repl env_stop_first
              (System RUNNING AtSleep Waiting store_0 0 [None; Some "s"]) [Some "s"])
    as (_ & _ & _ & _ & Hnever); [reflexivity | reflexivity | discriminate |].
  apply Hnever.
Defined.

(** *** Startup with the tokens *)

(** X19.  [check_tokens] returns [True] exactly when each of the three
    variables is set to a string that is not empty; [main] then logs
    nothing at its first statement and goes on to set [state]. *)
Theorem X19_check_tokens_true env :
  (check_tokens (cfg env) = true ↔
   ∃ practicum telegram chat,
     PRACTICUM_TOKEN (cfg env) = Some practicum ∧ practicum ≠ "" ∧
     TELEGRAM_TOKEN (cfg env) = Some telegram ∧ telegram ≠ "" ∧
     TELEGRAM_CHAT_ID (cfg env) = Some chat ∧ chat ≠ "") ∧
  (check_tokens (cfg env) = true →
   ∀ s, main_at s = AtCheckTokens →
     main_step env s =
     System (state s) AtSetRunning (repl_at s) (vars s) (pass s) (stdin s)).
Proof.
  split.
  - assert (Htruthy : ∀ o, py_truthy (py_of_env o) = true ↔ ∃ v, o = Some v ∧ v ≠ "").
    { intros [v|]; simpl.
      - case_bool_decide as Hv; simpl.
        + split; [done|]. intros (v' & [= <-] & Hne). done.
        + split; [|done]. intros _. by exists v.
      - split; [done|]. by intros (v & ? & _). }
    unfold check_tokens. simpl. rewrite andb_true_r, !andb_true_iff, !Htruthy.
    split.
    + intros ((a & Ha & Hna) & (b & Hb & Hnb) & (c & Hc & Hnc)).
      exists a, b, c. by split_and!.
    + intros (a & b & c & Ha & Hna & Hb & Hnb & Hc & Hnc).
      split_and!; eexists; by split.
  - intros Hcheck s Hat. unfold main_step. by rewrite Hat, Hcheck.
Qed.

Lemma X19_check_tokens_true_witness :
  main_at (main_step (env_of world_500) (boot [])) = AtSetRunning.
Proof.
  destruct (X19_check_tokens_true (env_of world_500)) as [_ Hmain].
  rewrite (Hmain eq_refl (boot []) eq_refl).
  reflexivity.
Defined.

(** *** A pass that has begun *)

(** X20.  Once [main] has entered the [try] block of a pass, it ends
    with an exception that is not a [TelegramError] as soon as it runs,
    and never through the [break] of the loop: a stop requested while a
    pass is under way is not followed by a clean return. *)
Theorem X20_a_pass_ends_main env s schedule :
  main_at s = AtTry →
  main_at (run env schedule s) ≠ Returned ∧
  (MainThread ∈ schedule →
     ∃ e, main_at (run env schedule s) = Raised e ∧ is_TelegramError e = false).
Proof.
  revert s. induction schedule as [|t schedule IH]; intros s Hat; simpl.
  - split; [by rewrite Hat|]. intros Hin. by apply elem_of_nil in Hin.
  - destruct t; simpl.
    + destruct (fetch_validate_parse_raises (cfg env) (oracle env (pass s)) (vars s))
        as (st' & e & Hfvp & He & _).
      assert (Hstep : main_step env s =
        System (state s) (Raised e) (repl_at s) st' (pass s) (stdin s)).
      { unfold main_step. rewrite Hat.
        by rewrite (poll_cycle_propagates _ _ _ _ _ Hfvp He). }
      rewrite Hstep.
      destruct (run_main_ended env schedule
                  (System (state s) (Raised e) (repl_at s) st' (pass s) (stdin s)))
        as (Hend & _); [done|].
      simpl in Hend. rewrite Hend. split; [done|]. intros _. by exists e.
    + destruct (repl_step_main s) as (Hm & _).
      destruct (IH (repl_step s)) as [Hnot Hraised]; [by rewrite Hm|].
      split; [done|]. intros Hin. apply Hraised.
      apply elem_of_cons in Hin as [Hin | Hin]; [discriminate | done].
Qed.

Lemma X20_a_pass_ends_main_witness :
  main_at (run (env_of (world_200 payload_A)) [ReplThread; MainThread]
             (System RUNNING AtTry Waiting store_0 0 [Some "s"])) ≠ Returned.
Proof.
  destruct (X20_a_pass_ends_main (env_of (world_200 payload_A))
              (System RUNNING AtTry Waiting store_0 0 [Some "s"])
              [ReplThread; MainThread]) as [Hnot _]; [reflexivity|].
  exact Hnot.
Defined.

(** *** Instances of the characterisations *)

Lemma X2_check_response_returns_homeworks_witness :
  check_response payload_A store_0 = (store_0, Ok (VList [hw1_approved])).
Proof.
  apply (X2_check_response_returns_homeworks payload_A store_0 store_0
           (VList [hw1_approved])).
  exists [("homeworks", VList [hw1_approved]); ("current_date", VInt 1000)],
         [hw1_approved].
  split_and!; try reflexivity. discriminate.
Defined.

Lemma X7_parse_status_returns_message_witness :
  (parse_status hw1_approved store_0).2 = Ok message_hw1_approved.
Proof.
  rewrite (proj2 (X7_parse_status_returns_message hw1_approved store_0
                    (record (Logged DEBUG message_hw1_approved []) store_0)
                    message_hw1_approved)); [reflexivity|].
  exists [("homework_name", VStr "hw1"); ("status", VStr "approved")], "approved",
         "Работа проверена: ревьюеру всё понравилось. Ура!".
  split_and!; try reflexivity; [discriminate|].
  unfold status_codes. apply elem_of_cons. by left.
Defined.

Lemma X8_send_message_calls_once_witness :
  bot_sends (trace (send_message sample_config world_send_fails "text" store_0).1)
    = [BotSend (VStr "1001") "text"].
Proof.
  destruct (X8_send_message_calls_once sample_config world_send_fails "text" store_0)
    as (Hsends & _).
  exact Hsends.
Defined.

Lemma X9_get_api_answer_returns_body_witness :
  (get_api_answer sample_config (world_200 payload_B) (VInt 800) store_0).2 = Ok payload_B.
Proof.
  apply (X9_get_api_answer_returns_body sample_config (world_200 payload_B) (VInt 800)
           store_0 payload_B).
  exists (HttpResponse 200 "OK" "" (inr payload_B)). by split_and!.
Defined.
